(** * Salesforce REST API data fetcher: a shallow embedding of [rest-app.py]

    The development follows the script function by function:
    [load_auth_credentials], [determine_record_key], [fetch_data] and the
    part of [main] that prepares the instance URL and calls [fetch_data].

    Python values that come out of [json.load] and [response.json()] are
    modelled by the type [json]; a Python [dict] is an association list in
    insertion order (the order matters: the script takes the first key).
    A Python [str] is a [string] whose characters are read as code points
    below 256.  Exceptions are explicit: every operation that can raise
    returns a [result]. *)

From Stdlib Require Import String Ascii List ZArith Bool Lia PeanoNat.
From Stdlib Require Import PrimFloat DecimalString.
Import ListNotations.

Local Open Scope string_scope.
Local Open Scope list_scope.

(* ================================================================== *)
(** ** Python values, exceptions *)

#[warnings="-register-all"]
Inductive json : Type :=
| JNull
| JBool (b : bool)
| JInt (n : Z)
| JFloat (f : float)
| JStr (s : string)
| JArr (l : list json)
| JObj (d : list (string * json)).

(** A Python dict with string keys, in insertion order. *)
Definition dict : Type := list (string * json).

Inductive exn : Type :=
| ValueError (msg : string)
| TypeError
| AttributeError
| UnboundLocalError
| JSONDecodeError
| RequestException.

Inductive result (A : Type) : Type :=
| Ok (a : A)
| Raise (e : exn).

Arguments Ok {A} a.
Arguments Raise {A} e.

Definition bind {A B : Type} (r : result A) (k : A -> result B) : result B :=
  match r with
  | Ok a => k a
  | Raise e => Raise e
  end.

Notation "x <- r ;; k" := (bind r (fun x => k))
  (at level 61, r at next level, right associativity).

(** Python truth value of a JSON value ([bool(v)]). *)
Definition truthy (v : json) : bool :=
  match v with
  | JNull => false
  | JBool b => b
  | JInt n => negb (n =? 0)%Z
  | JFloat f => negb (PrimFloat.eqb f 0%float)
  | JStr s => match s with EmptyString => false | String _ _ => true end
  | JArr l => match l with [] => false | _ :: _ => true end
  | JObj d => match d with [] => false | _ :: _ => true end
  end.

(** [a or b]: the first operand when it is truthy, else the second;
    the second operand is only evaluated in that case. *)
Definition py_or (a : json) (b : result json) : result json :=
  if truthy a then Ok a else b.

Fixpoint lookup (k : string) (d : dict) : option json :=
  match d with
  | [] => None
  | (k', v) :: rest => if String.eqb k' k then Some v else lookup k rest
  end.

Definition keys (d : dict) : list string := map fst d.

Fixpoint remove_key (k : string) (d : dict) : dict :=
  match d with
  | [] => []
  | (k', v) :: rest =>
      if String.eqb k' k then remove_key k rest else (k', v) :: remove_key k rest
  end.

(** [v.get(k, default)]: only a dict has the method. *)
Definition py_get (v : json) (k : string) (default : json) : result json :=
  match v with
  | JObj d => Ok (match lookup k d with Some x => x | None => default end)
  | _ => Raise AttributeError
  end.

(** [x in s] for two strings: [x] occurs in [s]. *)
Fixpoint substr (x s : string) : bool :=
  String.prefix x s ||
  match s with
  | EmptyString => false
  | String _ r => substr x r
  end.

(** [x in v] for a string [x]: key membership for a dict, element
    membership for a list, substring for a string, [TypeError] otherwise. *)
Definition py_contains (v : json) (x : string) : result bool :=
  match v with
  | JObj d => Ok (existsb (String.eqb x) (keys d))
  | JArr l =>
      Ok (existsb (fun e => match e with JStr s => String.eqb s x | _ => false end) l)
  | JStr s => Ok (substr x s)
  | _ => Raise TypeError
  end.

(** [next(iter(v.keys()), default)] *)
Definition py_first_key (v : json) (default : string) : result string :=
  match v with
  | JObj d => Ok (hd default (keys d))
  | _ => Raise AttributeError
  end.

(** What [list.extend] iterates over: the elements of a list, the
    characters of a string, the keys of a dict; anything else is not
    iterable. *)
Definition py_iter (v : json) : result (list json) :=
  match v with
  | JArr l => Ok l
  | JStr s => Ok (map (fun c => JStr (String c EmptyString)) (list_ascii_of_string s))
  | JObj d => Ok (map JStr (keys d))
  | _ => Raise TypeError
  end.

(** [s.split(sep)] for a one-character separator. *)
Fixpoint split (sep : ascii) (s : string) : list string :=
  match s with
  | EmptyString => [EmptyString]
  | String c r =>
      if Ascii.eqb c sep then EmptyString :: split sep r
      else match split sep r with
           | [] => [String c EmptyString]
           | h :: t => String c h :: t
           end
  end.

(** Characters for which [str.isspace] holds, among code points below 256. *)
Definition isspace (c : ascii) : bool :=
  let n := nat_of_ascii c in
  (((9 <=? n) && (n <=? 13)) || ((28 <=? n) && (n <=? 32))
   || (n =? 133) || (n =? 160))%nat.

Fixpoint lstrip (s : string) : string :=
  match s with
  | EmptyString => EmptyString
  | String c r => if isspace c then lstrip r else s
  end.

Fixpoint rstrip (s : string) : string :=
  match s with
  | EmptyString => EmptyString
  | String c r =>
      match rstrip r with
      | EmptyString => if isspace c then EmptyString else String c EmptyString
      | r' => String c r'
      end
  end.

(** [s.strip()] *)
Definition strip (s : string) : string := rstrip (lstrip s).

(** [s.startswith(p)] *)
Definition startswith (p s : string) : bool := String.prefix p s.

(** Decimal rendering of an integer, as an f-string does it. *)
Definition str_of_Z (z : Z) : string := NilZero.string_of_int (Z.to_int z).

(* ================================================================== *)
(** ** [load_auth_credentials] *)

Record credentials : Type := {
  access_token : json;
  instance_url : json
}.

(** The argument is the value [json.load(auth_file)] produced. *)
Definition load_auth_credentials (auth_data : json) : result credentials :=
  t <- py_get auth_data "access_token" JNull ;;
  access_token <- py_or t (py_get auth_data "accessToken" JNull) ;;
  u <- py_get auth_data "instance_url" JNull ;;
  instance_url <- py_or u (py_get auth_data "instanceUrl" JNull) ;;
  if negb (truthy access_token) || negb (truthy instance_url)
  then Raise (ValueError "Missing required credentials in auth.json")
  else Ok {| access_token := access_token; instance_url := instance_url |}.

(* ================================================================== *)
(** ** [determine_record_key] *)

Definition endpoint_key_of (endpoint_path : string) : string :=
  last (split "/" endpoint_path) EmptyString.

Definition determine_record_key (endpoint_path : string) (response_json : json)
  : result string :=
  let endpoint_key := endpoint_key_of endpoint_path in
  found <- py_contains response_json endpoint_key ;;
  if found then Ok endpoint_key
  else py_first_key response_json "records".

(* ================================================================== *)
(** ** [fetch_data] *)

(** What the script reads from a [requests.Response]: the status code,
    the body as text, and the outcome of [response.json()]. *)
Record http_response : Type := {
  status_code : Z;
  text : string;
  response_json : result json
}.

Definition headers : Type := list (string * string).

(** Python's [return None, None] and [return all_records, last_response]. *)
Definition returned : Type := (option (list json) * option json)%type.

Inductive outcome : Type :=
| Returns (r : returned)
| Raises (e : exn)
| OutOfFuel.

(** One execution: how it ended, the URLs passed to [requests.get] in
    order, and the messages passed to [st.error] in order. *)
Record run : Type := {
  result_of : outcome;
  requested : list json;
  st_errors : list string
}.

Definition finish (o : outcome) : run :=
  {| result_of := o; requested := []; st_errors := [] |}.

Definition st_error (msg : string) (r : run) : run :=
  {| result_of := result_of r; requested := requested r;
     st_errors := msg :: st_errors r |}.

Definition sent (url : json) (r : run) : run :=
  {| result_of := result_of r; requested := url :: requested r;
     st_errors := st_errors r |}.

Definition failed_to_fetch (response : http_response) : string :=
  ("Failed to fetch data: " ++ str_of_Z (status_code response) ++ " "
   ++ text response)%string.

Section Fetch.

(** The two library calls of the loop.  [requests_get n url hdrs] is
    what [requests.get(url, headers=hdrs)] does when [n] requests have
    been sent before it; [urljoin base ref] is [urllib.parse.urljoin]. *)
Variable requests_get : nat -> json -> headers -> result http_response.
Variable urljoin : string -> json -> result json.

Variable hdrs : headers.
Variable instance_url_ : string.
Variable endpoint_path : string.
Variable all_pages : bool.

(** Lines 76-77: the records one page adds to [all_records]. *)
Definition page_records (last_response : json) : result (list json) :=
  record_key <- determine_record_key endpoint_path last_response ;;
  v <- py_get last_response record_key (JArr []) ;;
  py_iter v.

(** Lines 81-83: the value of [full_url] after a page, when
    [all_pages] is set. *)
Definition next_url (last_response : json) : result json :=
  full_url <- py_get last_response "nextPageUrl" JNull ;;
  if truthy full_url then urljoin instance_url_ full_url else Ok full_url.

(** The [while full_url:] loop.  [n] counts the requests already sent;
    [last_response] is [None] while the variable is unbound.  The loop
    test costs no fuel, each request costs one unit. *)
Fixpoint fetch_loop (fuel : nat) (n : nat) (full_url : json)
         (all_records : list json) (last_response : option json) : run :=
  if negb (truthy full_url) then
    match last_response with
    | Some r => finish (Returns (Some all_records, Some r))
    | None => finish (Raises UnboundLocalError)
    end
  else
    match fuel with
    | O => finish OutOfFuel
    | S fuel' =>
        sent full_url
          match requests_get n full_url hdrs with
          | Raise e => finish (Raises e)
          | Ok response =>
              if negb (status_code response =? 200)%Z then
                st_error (failed_to_fetch response) (finish (Returns (None, None)))
              else
                match response_json response with
                | Raise e => finish (Raises e)
                | Ok last_response' =>
                    match page_records last_response' with
                    | Raise e => finish (Raises e)
                    | Ok records =>
                        let all_records' := all_records ++ records in
                        if all_pages then
                          match next_url last_response' with
                          | Raise e => finish (Raises e)
                          | Ok full_url' =>
                              fetch_loop fuel' (S n) full_url' all_records'
                                         (Some last_response')
                          end
                        else
                          finish (Returns (Some all_records', Some last_response'))
                    end
                end
          end
    end.

Definition fetch_data (fuel : nat) (full_url : json) : run :=
  fetch_loop fuel 0 full_url [] None.

End Fetch.

(* ================================================================== *)
(** ** [main], from the upload to the call of [fetch_data] *)

(** Lines 117-121. *)
Definition normalize_instance_url (loaded : string) : string :=
  let instance_url := strip loaded in
  if negb (startswith "http://" instance_url || startswith "https://" instance_url)
  then ("https://" ++ instance_url)%string
  else instance_url.

Definition main_instance_url (auth_credentials : credentials) : result string :=
  match instance_url auth_credentials with
  | JStr s => Ok (normalize_instance_url s)
  | _ => Raise AttributeError
  end.

Inductive main_outcome : Type :=
| MainRaises (e : exn)
| MainNoEndpoint
| MainFetched (r : run).

Section Main.

Variable requests_get : nat -> json -> headers -> result http_response.
Variable urljoin : string -> json -> result json.
(** [format v]: the text an f-string puts for [{v}]. *)
Variable format : json -> string.

Definition main_headers (auth_credentials : credentials) : headers :=
  [("Authorization", ("Bearer " ++ format (access_token auth_credentials))%string);
   ("Content-Type", "application/json")].

(** Lines 116-145 for an uploaded file whose content is [auth_data],
    with the button pressed.  The [try] starts after the URL is formed,
    so an exception before that point leaves [main]. *)
Definition main_fetch (fuel : nat) (auth_data : json) (endpoint_path : string)
           (all_pages : bool) : main_outcome :=
  match load_auth_credentials auth_data with
  | Raise e => MainRaises e
  | Ok auth_credentials =>
      match main_instance_url auth_credentials with
      | Raise e => MainRaises e
      | Ok instance_url =>
          match endpoint_path with
          | EmptyString => MainNoEndpoint
          | _ =>
              match urljoin instance_url (JStr endpoint_path) with
              | Raise e => MainRaises e
              | Ok full_url =>
                  MainFetched
                    (fetch_data requests_get urljoin
                                (main_headers auth_credentials)
                                instance_url endpoint_path all_pages
                                fuel full_url)
              end
          end
      end
  end.

End Main.

(* ================================================================== *)
(** ** Chains of pages *)

(** A page as a server delivers it: the URL it is served at, the JSON
    object of the body, and the records the body holds. *)
Record page : Type := {
  page_url : json;
  page_body : dict;
  page_items : list json
}.

Fixpoint last_body (pages : list page) : option json :=
  match pages with
  | [] => None
  | [p] => Some (JObj (page_body p))
  | _ :: rest => last_body rest
  end.

Section Pages.

Variable requests_get : nat -> json -> headers -> result http_response.
Variable urljoin : string -> json -> result json.
Variable hdrs : headers.
Variable instance_url_ : string.
Variable endpoint_path : string.

(** The [n]-th request, sent to the page's URL, is answered with status
    200 and the page's body, whose records are the page's items. *)
Definition serves (n : nat) (p : page) : Prop :=
  truthy (page_url p) = true /\
  exists response,
    requests_get n (page_url p) hdrs = Ok response /\
    status_code response = 200%Z /\
    response_json response = Ok (JObj (page_body p)) /\
    page_records endpoint_path (JObj (page_body p)) = Ok (page_items p).

(** Every page but the last carries a [nextPageUrl] link that resolves
    to the URL of the page after it; the last page has no such field. *)
Fixpoint chained (n : nat) (pages : list page) : Prop :=
  match pages with
  | [] => True
  | p :: rest =>
      serves n p /\
      match rest with
      | [] => lookup "nextPageUrl" (page_body p) = None
      | q :: _ =>
          exists link,
            lookup "nextPageUrl" (page_body p) = Some link /\
            truthy link = true /\
            urljoin instance_url_ link = Ok (page_url q)
      end /\
      chained (S n) rest
  end.

(** Page [k] carries no [nextPageUrl] field, whatever URL it is
    requested at. *)
Definition no_link_at (k : nat) : Prop :=
  forall url response d,
    requests_get k url hdrs = Ok response ->
    response_json response = Ok (JObj d) ->
    lookup "nextPageUrl" d = None.

(** The run that requests every page of a chain in order and returns
    all their records together with the body of the last page. *)
Definition all_pages_run (pages : list page) : run :=
  {| result_of := Returns (Some (concat (map page_items pages)), last_body pages);
     requested := map page_url pages;
     st_errors := [] |}.

End Pages.

(* ================================================================== *)
(** ** Statements that are tested below as they are worded *)

(** Record-key inference without the ['records'] default: the matching
    key, otherwise the first key of the object. *)
Definition first_key_rule (endpoint_path : string) (d : dict) : Prop :=
  let k := endpoint_key_of endpoint_path in
  (In k (keys d) -> determine_record_key endpoint_path (JObj d) = Ok k) /\
  (~ In k (keys d) ->
   exists k1, hd_error (keys d) = Some k1 /\
              determine_record_key endpoint_path (JObj d) = Ok k1).

(** The key is missing from the object or holds the empty string. *)
Definition absent_or_empty (k : string) (d : dict) : Prop :=
  lookup k d = None \/ lookup k d = Some (JStr EmptyString).

(** [v] is the value the two spellings of a credential stand for: the
    truthy value under the snake_case key, or, when that key is absent
    or empty, the truthy value under the camelCase key. *)
Definition spelled (snake camel : string) (d : dict) (v : json) : Prop :=
  truthy v = true /\
  (lookup snake d = Some v \/
   (absent_or_empty snake d /\ lookup camel d = Some v)).

(** A URL that starts with [http://] or [https://]. *)
Definition http_scheme (url : json) : bool :=
  match url with
  | JStr s => startswith "http://" s || startswith "https://" s
  | _ => false
  end.

(** Every URL that was passed to [requests.get] has such a scheme. *)
Definition requests_have_http_scheme (o : main_outcome) : Prop :=
  match o with
  | MainFetched r => forallb http_scheme (requested r) = true
  | _ => True
  end.

Definition all_space (s : string) : Prop :=
  Forall (fun c => isspace c = true) (list_ascii_of_string s).

(** No whitespace at either end. *)
Definition trimmed (s : string) : Prop :=
  match list_ascii_of_string s with
  | [] => True
  | c :: _ => isspace c = false /\ isspace (last (list_ascii_of_string s) c) = false
  end.

(* ================================================================== *)
(** ** A sample org

    A small server and stand-ins for the library functions, used to run
    the model on concrete inputs. *)

Definition sample_base : string := "https://acme.my.salesforce.com".
Definition recipes_path : string := "/services/data/v60.0/wave/recipes".
Definition jobs_path : string := "/services/data/v60.0/jobs/ingest".
Definition empty_path : string := "/services/data/v60.0/empty".

(** [urljoin] on the two shapes the samples use: a reference that has a
    scheme of its own comes back as it is, a root-relative reference is
    put after a base that has no path. *)
Definition sample_urljoin (base : string) (ref : json) : result json :=
  match ref with
  | JStr s => Ok (JStr (if substr "://" s then s else (base ++ s)%string))
  | _ => Raise TypeError
  end.

(** An f-string on a [str] inserts it unchanged; the samples format
    nothing else. *)
Definition sample_format (v : json) : string :=
  match v with
  | JStr s => s
  | _ => EmptyString
  end.

Definition recipe (id name : string) : json :=
  JObj [("id", JStr id); ("name", JStr name)].

Definition recipes_body1 : dict :=
  [("nextPageUrl", JStr "/services/data/v60.0/wave/recipes?page=2");
   ("recipes", JArr [recipe "05v1" "Sales"; recipe "05v2" "Leads"]);
   ("totalSize", JInt 3)].

Definition recipes_body2 : dict :=
  [("recipes", JArr [recipe "05v3" "Cases"]);
   ("totalSize", JInt 3)].

Definition jobs_body1 : dict :=
  [("records", JArr [JObj [("id", JStr "750a")]]);
   ("done", JBool false);
   ("nextPageUrl", JStr "/services/data/v60.0/jobs/ingest?page=2")].

Definition ok_response (d : dict) : http_response :=
  {| status_code := 200; text := EmptyString; response_json := Ok (JObj d) |}.

Definition error_response (code : Z) (msg : string) : http_response :=
  {| status_code := code; text := msg; response_json := Raise JSONDecodeError |}.

(** The sample server answers by URL; [requests] has no adapter for a
    URL that is not http(s) and raises. *)
Definition sample_get (n : nat) (url : json) (h : headers) : result http_response :=
  match url with
  | JStr s =>
      if negb (http_scheme url) then Raise RequestException
      else if String.eqb s (sample_base ++ recipes_path) then
        Ok (ok_response recipes_body1)
      else if String.eqb s (sample_base ++ recipes_path ++ "?page=2") then
        Ok (ok_response recipes_body2)
      else if String.eqb s (sample_base ++ jobs_path) then
        Ok (ok_response jobs_body1)
      else if String.eqb s (sample_base ++ jobs_path ++ "?page=2") then
        Ok (error_response 503 "Service Unavailable")
      else if String.eqb s (sample_base ++ empty_path) then
        Ok (ok_response [])
      else Ok (error_response 404 "Not Found")
  | _ => Raise RequestException
  end.

(** A server that answers the [n]-th request with the [n]-th response of
    a script, whatever the URL. *)
Definition scripted_get (script : list http_response)
           (n : nat) (url : json) (h : headers) : result http_response :=
  match nth_error script n with
  | Some response => Ok response
  | None => Raise RequestException
  end.

Definition two_page_script : list http_response :=
  [ok_response recipes_body1; ok_response recipes_body2].

Definition sample_headers : headers :=
  [("Authorization", "Bearer 00Dxx0000001gPL"); ("Content-Type", "application/json")].

Definition sample_auth : json :=
  JObj [("accessToken", JStr "00Dxx0000001gPL");
        ("instanceUrl", JStr "  acme.my.salesforce.com ")].

Definition camel_fallback : dict :=
  [("access_token", JStr ""); ("accessToken", JStr "00Dcamel");
   ("instanceUrl", JStr "https://camel.example.com")].

Definition empty_token : dict :=
  [("access_token", JStr "");
   ("instance_url", JStr "https://snake.example.com")].

Definition both_spellings : dict :=
  [("access_token", JStr "00Dsnake"); ("accessToken", JStr "");
   ("instance_url", JStr "https://snake.example.com");
   ("instanceUrl", JStr "https://camel.example.com")].

Definition recipes_pages : list page :=
  [ {| page_url := JStr (sample_base ++ recipes_path);
       page_body := recipes_body1;
       page_items := [recipe "05v1" "Sales"; recipe "05v2" "Leads"] |};
    {| page_url := JStr (sample_base ++ recipes_path ++ "?page=2");
       page_body := recipes_body2;
       page_items := [recipe "05v3" "Cases"] |} ].

Definition sample_fetch (endpoint_path : string) (all_pages : bool) : run :=
  fetch_data sample_get sample_urljoin sample_headers sample_base endpoint_path
             all_pages 10 (JStr (sample_base ++ endpoint_path)).

(* ================================================================== *)
(** ** Pages as they were fetched *)

(** Values [list.extend] cannot iterate over. *)
Definition not_iterable (v : json) : bool :=
  match v with
  | JNull | JBool _ | JInt _ | JFloat _ => true
  | _ => false
  end.

Section Fetched.

Variable requests_get : nat -> json -> headers -> result http_response.
Variable hdrs : headers.
Variable endpoint_path : string.

(** [urls] were requested from request number [n] on, each was answered
    with status 200 and a body whose records are the matching entry of
    [rs]; [before] is the last response before these requests and
    [after] the last response after them. *)
Fixpoint fetched_pages (n : nat) (urls : list json) (rs : list (list json))
         (before after : option json) : Prop :=
  match urls, rs with
  | [], [] => after = before
  | url :: urls', r :: rs' =>
      exists response body,
        requests_get n url hdrs = Ok response /\
        status_code response = 200%Z /\
        response_json response = Ok body /\
        page_records endpoint_path body = Ok r /\
        fetched_pages (S n) urls' rs' (Some body) after
  | _, _ => False
  end.

End Fetched.

(* ================================================================== *)
(** ** [main], lines 112-180: what the page shows *)

Section App.

Variable requests_get : nat -> json -> headers -> result http_response.
Variable urljoin : string -> json -> result json.
Variable format : json -> string.

(** [pandas]: [frame] is the type of a [DataFrame], [DataFrame data]
    builds one from the records, [to_csv df] is
    [df.to_csv(index=False).encode('utf-8')]. *)
Variable frame : Type.
Variable DataFrame : list json -> result frame.
Variable to_csv : frame -> result string.

(** The Streamlit calls that put something on the page. *)
Inductive ui_event : Type :=
| StError (msg : string)
| StErrorOccurred (e : exn)
| StWarning (msg : string)
| StDataframe (df : frame)
| StDownloadButton (csv : string)
| StWrite (msg : string)
| StCode (v : json)
| StJson (v : json).

Inductive app_result : Type :=
| AppDone (events : list ui_event)
| AppRaised (e : exn) (events : list ui_event)
| AppOutOfFuel.

(** Lines 147-177, inside the [try]. *)
Definition show_data (full_url : json) (data : list json)
           (last_response : option json) : list ui_event :=
  match DataFrame data with
  | Raise e => [StErrorOccurred e]
  | Ok df =>
      StDataframe df ::
      match to_csv df with
      | Raise e => [StErrorOccurred e]
      | Ok csv =>
          [StDownloadButton csv; StWrite "**Formed API URL:**"; StCode full_url]
          ++ match last_response with
             | Some v =>
                 if truthy v then [StWrite "**JSON Response:**"; StJson v] else []
             | None => []
             end
      end
  end.

(** Lines 143-180: the [try] around [fetch_data] and what follows it;
    the messages [fetch_data] itself showed come first. *)
Definition render (full_url : json) (r : run) : app_result :=
  let shown := map StError (st_errors r) in
  match result_of r with
  | OutOfFuel => AppOutOfFuel
  | Raises e => AppDone (shown ++ [StErrorOccurred e])
  | Returns (None, _) => AppDone shown
  | Returns (Some [], _) => AppDone (shown ++ [StWarning "No data found."])
  | Returns (Some data, last_response) =>
      AppDone (shown ++ show_data full_url data last_response)
  end.

(** Lines 112-180.  [uploaded] is [None] while no file is uploaded, else
    the parsed content of the file; [button] tells whether "Fetch Data"
    was pressed. *)
Definition main_app (fuel : nat) (uploaded : option json) (endpoint_path : string)
           (all_pages : bool) (button : bool) : app_result :=
  match uploaded with
  | None => AppDone []
  | Some auth_data =>
      match load_auth_credentials auth_data with
      | Raise e => AppRaised e []
      | Ok auth_credentials =>
          match main_instance_url auth_credentials with
          | Raise e => AppRaised e []
          | Ok instance_url =>
              if negb button then AppDone []
              else
                match endpoint_path with
                | EmptyString =>
                    AppDone [StError "REST API endpoint path is required."]
                | _ =>
                    match urljoin instance_url (JStr endpoint_path) with
                    | Raise e => AppRaised e []
                    | Ok full_url =>
                        render full_url
                               (fetch_data requests_get urljoin
                                           (main_headers format auth_credentials)
                                           instance_url endpoint_path all_pages
                                           fuel full_url)
                    end
                end
          end
      end
  end.

End App.

Arguments StError {frame} msg.
Arguments StErrorOccurred {frame} e.
Arguments StWarning {frame} msg.
Arguments StDataframe {frame} df.
Arguments StDownloadButton {frame} csv.
Arguments StWrite {frame} msg.
Arguments StCode {frame} v.
Arguments StJson {frame} v.
Arguments AppDone {frame} events.
Arguments AppRaised {frame} e events.
Arguments AppOutOfFuel {frame}.
Arguments show_data {frame} DataFrame to_csv full_url data last_response.
Arguments render {frame} DataFrame to_csv full_url r.
Arguments main_app requests_get urljoin format {frame} DataFrame to_csv
          fuel uploaded endpoint_path all_pages button.

(** A 200 response whose body is a JSON array, and a page whose
    [nextPageUrl] is [null]. *)
Definition array_response : http_response :=
  {| status_code := 200; text := EmptyString;
     response_json := Ok (JArr [recipe "05v9" "Loose"]) |}.

Definition null_link_body : dict :=
  [("recipes", JArr [recipe "05v1" "Sales"]); ("nextPageUrl", JNull)].

Definition array_script : list http_response :=
  [ok_response recipes_body1; array_response].

Definition null_link_script : list http_response :=
  [ok_response null_link_body; ok_response recipes_body2].

Definition scripted_fetch (script : list http_response) : run :=
  fetch_data (scripted_get script) sample_urljoin sample_headers sample_base
             recipes_path true 10 (JStr (sample_base ++ recipes_path)).

(** Stand-ins for [pandas] in the sample runs: the frame is the list of
    records itself, the CSV text is not looked at. *)
Definition sample_DataFrame (data : list json) : result (list json) := Ok data.
Definition sample_to_csv (df : list json) : result string := Ok "id,name".

Definition sample_app (endpoint_path : string) (all_pages : bool)
  : app_result (list json) :=
  main_app sample_get sample_urljoin sample_format sample_DataFrame sample_to_csv
           10 (Some sample_auth) endpoint_path all_pages true.

(* ================================================================== *)
(** * Properties *)

(** ** Dictionaries and strings *)

Lemma existsb_eqb_In (x : string) (l : list string) :
  existsb (String.eqb x) l = true <-> In x l.
Proof.
  rewrite existsb_exists. split.
  - intros [y [Hy He]]. apply String.eqb_eq in He. now subst.
  - intros H. exists x. split; [assumption | apply String.eqb_refl].
Qed.

Lemma lookup_remove_key (k k' : string) (d : dict) :
  lookup k' (remove_key k d) = if String.eqb k k' then None else lookup k' d.
Proof.
  induction d as [| [k0 v] d IH]; simpl.
  - now destruct (String.eqb k k').
  - destruct (String.eqb k0 k) eqn:E0.
    + apply String.eqb_eq in E0. subst k0. rewrite IH.
      destruct (String.eqb k k'); reflexivity.
    + simpl. rewrite IH. destruct (String.eqb k0 k') eqn:E1; [| reflexivity].
      apply String.eqb_eq in E1. subst k0.
      now rewrite String.eqb_sym, E0.
Qed.

Lemma split_nonempty (sep : ascii) (s : string) : split sep s <> [].
Proof.
  destruct s as [| c r]; simpl; [discriminate |].
  destruct (Ascii.eqb c sep); [discriminate |].
  destruct (split sep r); discriminate.
Qed.

Lemma split_app_sep (sep : ascii) (p s : string) :
  split sep (p ++ String sep s) = split sep p ++ split sep s.
Proof.
  induction p as [| c p IH]; simpl.
  - now rewrite Ascii.eqb_refl.
  - destruct (Ascii.eqb c sep); [now rewrite IH |].
    rewrite IH. destruct (split sep p) eqn:E; [| reflexivity].
    now apply split_nonempty in E.
Qed.

Lemma split_no_sep (sep : ascii) (s : string) :
  ~ In sep (list_ascii_of_string s) -> split sep s = [s].
Proof.
  induction s as [| c r IH]; simpl; intros H; [reflexivity |].
  destruct (Ascii.eqb c sep) eqn:E.
  - apply Ascii.eqb_eq in E. tauto.
  - rewrite IH by tauto. reflexivity.
Qed.

Lemma last_app_nonempty {A : Type} (l1 l2 : list A) (d : A) :
  l2 <> [] -> last (l1 ++ l2) d = last l2 d.
Proof.
  intros H. induction l1 as [| x l1 IH]; [reflexivity |].
  simpl. destruct (l1 ++ l2) eqn:E; [| exact IH].
  apply app_eq_nil in E. tauto.
Qed.

(** The endpoint key is the text after the last ['/'] of the path, or the
    whole path when it has none. *)
Lemma endpoint_key_of_segment (prefix seg : string) :
  ~ In "/"%char (list_ascii_of_string seg) ->
  endpoint_key_of (prefix ++ String "/" seg) = seg /\ endpoint_key_of seg = seg.
Proof.
  intros H. unfold endpoint_key_of. split.
  - rewrite split_app_sep, last_app_nonempty by apply split_nonempty.
    now rewrite split_no_sep.
  - now rewrite split_no_sep.
Qed.

(** ** Credentials *)

Lemma py_get_obj (d : dict) (k : string) (default : json) :
  py_get (JObj d) k default =
  Ok (match lookup k d with Some x => x | None => default end).
Proof. reflexivity. Qed.

(** C5.  A credentials object without either token key, or without
    either instance-URL key, is rejected with the missing-credentials
    [ValueError]; no credentials record is returned. *)
Theorem load_auth_credentials_missing (d : dict) :
  (lookup "access_token" d = None /\ lookup "accessToken" d = None) \/
  (lookup "instance_url" d = None /\ lookup "instanceUrl" d = None) ->
  load_auth_credentials (JObj d) =
  Raise (ValueError "Missing required credentials in auth.json").
Proof.
  intros H. unfold load_auth_credentials, py_or. rewrite !py_get_obj. simpl.
  destruct H as [[H1 H2] | [H1 H2]]; rewrite H1, H2; simpl;
    repeat match goal with
           | |- context [lookup ?k d] => destruct (lookup k d); simpl
           | |- context [truthy ?v] => destruct (truthy v); simpl
           end; reflexivity.
Qed.

Lemma load_auth_credentials_missing_witness :
  load_auth_credentials
    (JObj [("instance_url", JStr "https://acme.my.salesforce.com")]) =
  Raise (ValueError "Missing required credentials in auth.json").
Proof.
  apply load_auth_credentials_missing. left. split; reflexivity.
Defined.

(** C9.  When the snake_case key holds a truthy value it is the one
    returned, whatever the camelCase key holds.  A key whose value is
    the empty string counts as absent: loading gives the same result as
    loading the object without that key.  When the snake_case key is
    absent or empty the value of the camelCase key is returned instead,
    so that credentials are returned whenever each of the two has a
    truthy value under one of its spellings; and when both spellings of
    a credential are absent or empty, loading ends in the
    missing-credentials error. *)
Theorem load_auth_credentials_prefers_snake_case (d : dict) :
  (forall t, lookup "access_token" d = Some t -> truthy t = true ->
     forall c, load_auth_credentials (JObj d) = Ok c -> access_token c = t) /\
  (forall u, lookup "instance_url" d = Some u -> truthy u = true ->
     forall c, load_auth_credentials (JObj d) = Ok c -> instance_url c = u) /\
  (forall t u, lookup "access_token" d = Some t -> truthy t = true ->
     lookup "instance_url" d = Some u -> truthy u = true ->
     load_auth_credentials (JObj d) =
     Ok {| access_token := t; instance_url := u |}) /\
  (forall k, In k ["access_token"; "accessToken"; "instance_url"; "instanceUrl"] ->
     lookup k d = Some (JStr "") ->
     load_auth_credentials (JObj d) = load_auth_credentials (JObj (remove_key k d))) /\
  (forall t u,
     spelled "access_token" "accessToken" d t ->
     spelled "instance_url" "instanceUrl" d u ->
     load_auth_credentials (JObj d) =
     Ok {| access_token := t; instance_url := u |}) /\
  ((absent_or_empty "access_token" d /\ absent_or_empty "accessToken" d) \/
   (absent_or_empty "instance_url" d /\ absent_or_empty "instanceUrl" d) ->
   load_auth_credentials (JObj d) =
   Raise (ValueError "Missing required credentials in auth.json")).
Proof.
  unfold load_auth_credentials, py_or.
  split; [| split; [| split; [| split; [| split]]]].
  - intros t Ht Tt c. rewrite !py_get_obj, Ht. simpl. rewrite Tt. simpl.
    destruct (lookup "instance_url" d) as [u |]; simpl;
      repeat match goal with
             | |- context [lookup ?k d] => destruct (lookup k d); simpl
             | |- context [truthy ?v] => destruct (truthy v) eqn:?; simpl
             end; try discriminate; intros [= <-]; reflexivity.
  - intros u Hu Tu c. rewrite !py_get_obj, Hu. simpl. rewrite Tu.
    destruct (lookup "access_token" d) as [t |]; simpl;
      repeat match goal with
             | |- context [lookup ?k d] => destruct (lookup k d); simpl
             | |- context [truthy ?v] => destruct (truthy v) eqn:?; simpl
             end; try discriminate; intros [= <-]; reflexivity.
  - intros t u Ht Tt Hu Tu. rewrite !py_get_obj, Ht, Hu. simpl.
    rewrite Tt. simpl. rewrite Tu. simpl. rewrite Tt, Tu. reflexivity.
  - intros k Hk Hempty. rewrite !py_get_obj, !lookup_remove_key.
    simpl in Hk.
    destruct Hk as [<- | [<- | [<- | [<- | []]]]]; simpl; rewrite Hempty; simpl;
      repeat match goal with
             | |- context [lookup ?k d] => destruct (lookup k d); simpl
             | |- context [truthy ?v] => destruct (truthy v) eqn:?; simpl
             end; reflexivity.
  - intros t u [Tt Ht] [Tu Hu]. rewrite !py_get_obj.
    destruct Ht as [Ht | [[Hs | Hs] Hc]]; destruct Hu as [Hu | [[Hs' | Hs'] Hc']];
      repeat match goal with
             | H : lookup _ d = _ |- _ => rewrite H; clear H
             end;
      simpl; rewrite ?Tt, ?Tu; simpl; rewrite ?Tt, ?Tu; simpl;
      rewrite ?Tt, ?Tu; reflexivity.
  - unfold absent_or_empty. rewrite !py_get_obj.
    intros [[[A | A] [B | B]] | [[A | A] [B | B]]]; rewrite A, B; simpl;
      repeat match goal with
             | |- context [lookup ?k d] => destruct (lookup k d); simpl
             | |- context [truthy ?v] => destruct (truthy v); simpl
             end; reflexivity.
Qed.

Lemma load_auth_credentials_prefers_snake_case_witness :
  (forall c, load_auth_credentials (JObj both_spellings) = Ok c ->
             access_token c = JStr "00Dsnake") /\
  (forall c, load_auth_credentials (JObj both_spellings) = Ok c ->
             instance_url c = JStr "https://snake.example.com") /\
  load_auth_credentials (JObj both_spellings) =
  Ok {| access_token := JStr "00Dsnake";
        instance_url := JStr "https://snake.example.com" |} /\
  load_auth_credentials (JObj both_spellings) =
  load_auth_credentials (JObj (remove_key "accessToken" both_spellings)) /\
  load_auth_credentials (JObj camel_fallback) =
  Ok {| access_token := JStr "00Dcamel";
        instance_url := JStr "https://camel.example.com" |} /\
  load_auth_credentials (JObj empty_token) =
  Raise (ValueError "Missing required credentials in auth.json").
Proof.
  destruct (load_auth_credentials_prefers_snake_case both_spellings)
    as [H1 [H2 [H3 [H4 _]]]].
  destruct (load_auth_credentials_prefers_snake_case camel_fallback)
    as [_ [_ [_ [_ [H5 _]]]]].
  destruct (load_auth_credentials_prefers_snake_case empty_token)
    as [_ [_ [_ [_ [_ H6]]]]].
  split; [| split; [| split; [| split; [| split]]]].
  - apply H1; reflexivity.
  - apply H2; reflexivity.
  - apply H3; reflexivity.
  - apply H4; [simpl; tauto | reflexivity].
  - apply H5.
    + split; [reflexivity |]. right. split; [right |]; reflexivity.
    + split; [reflexivity |]. right. split; [left |]; reflexivity.
  - apply H6. left. split; [right | left]; reflexivity.
Defined.

(** ** Record key *)

(** C4, as amended.  The key is the last ['/']-separated segment of the
    endpoint path when the object has that key; otherwise it is the
    first key of the object, and ['records'] when the object is empty. *)
Theorem determine_record_key_rule (endpoint_path : string) (d : dict) :
  let k := endpoint_key_of endpoint_path in
  (forall prefix seg, ~ In "/"%char (list_ascii_of_string seg) ->
     endpoint_path = (prefix ++ String "/" seg)%string \/ endpoint_path = seg ->
     k = seg) /\
  (In k (keys d) -> determine_record_key endpoint_path (JObj d) = Ok k) /\
  (~ In k (keys d) ->
   determine_record_key endpoint_path (JObj d) = Ok (hd "records" (keys d))).
Proof.
  cbv zeta. unfold determine_record_key. simpl. repeat split.
  - intros prefix seg Hseg [-> | ->]; now apply endpoint_key_of_segment.
  - intros H. apply existsb_eqb_In in H. now rewrite H.
  - intros H. destruct (existsb _ (keys d)) eqn:E; [| reflexivity].
    apply existsb_eqb_In in E. contradiction.
Qed.

Lemma determine_record_key_rule_witness :
  endpoint_key_of recipes_path = "recipes" /\
  determine_record_key recipes_path (JObj recipes_body1) = Ok "recipes" /\
  determine_record_key jobs_path (JObj jobs_body1) = Ok "records".
Proof.
  split; [| split].
  - apply (proj1 (determine_record_key_rule recipes_path [])
                 "/services/data/v60.0/wave" "recipes").
    + simpl. intros H. repeat (destruct H as [H | H]; [discriminate |]). exact H.
    + left. reflexivity.
  - apply (proj1 (proj2 (determine_record_key_rule recipes_path recipes_body1))).
    simpl. tauto.
  - apply (proj2 (proj2 (determine_record_key_rule jobs_path jobs_body1))).
    simpl. intros H. repeat (destruct H as [H | H]; [discriminate |]). exact H.
Defined.

(** C4 as worded fails on the empty object: it has no first key, and the
    function answers ['records']. *)
Lemma first_key_rule_fails_on_empty_object :
  determine_record_key recipes_path (JObj []) = Ok "records" /\
  ~ first_key_rule recipes_path [].
Proof.
  split; [reflexivity |].
  intros [_ H]. destruct H as [k1 [Hk _]].
  - simpl. tauto.
  - discriminate.
Qed.

(** ** The pagination loop *)

Lemma page_records_dict (endpoint_path : string) (body : json) (records : list json) :
  page_records endpoint_path body = Ok records -> exists d, body = JObj d.
Proof.
  unfold page_records, determine_record_key.
  destruct body; simpl; try discriminate.
  - destruct (substr _ s); discriminate.
  - destruct (existsb _ l); discriminate.
  - intros _. now eexists.
Qed.

Section FetchProperties.

Variable requests_get : nat -> json -> headers -> result http_response.
Variable urljoin : string -> json -> result json.
Variable hdrs : headers.
Variable base : string.
Variable endpoint_path : string.

Local Abbreviation loop := (fetch_loop requests_get urljoin hdrs base endpoint_path).
Local Abbreviation records_of := (page_records endpoint_path).
Local Abbreviation next_of := (next_url urljoin base).

Lemma fetch_loop_stop (ap : bool) fuel n url acc last :
  truthy url = false ->
  loop ap fuel n url acc last =
  match last with
  | Some r => finish (Returns (Some acc, Some r))
  | None => finish (Raises UnboundLocalError)
  end.
Proof. intros H. destruct fuel; simpl; rewrite H; reflexivity. Qed.

(** One full iteration that goes round the loop again. *)
Lemma fetch_loop_step fuel n url acc last response body records url' :
  truthy url = true ->
  requests_get n url hdrs = Ok response ->
  status_code response = 200%Z ->
  response_json response = Ok body ->
  records_of body = Ok records ->
  next_of body = Ok url' ->
  loop true (S fuel) n url acc last =
  sent url (loop true fuel (S n) url' (acc ++ records) (Some body)).
Proof.
  intros Hu Hg Hs Hj Hr Hn. simpl.
  rewrite Hu, Hg, Hs, Hj, Hr, Hn. reflexivity.
Qed.

Lemma next_of_link (d : dict) (link : json) :
  lookup "nextPageUrl" d = Some link ->
  next_of (JObj d) = if truthy link then urljoin base link else Ok link.
Proof. intros H. unfold next_url. simpl. now rewrite H. Qed.

Lemma next_of_no_link (d : dict) :
  lookup "nextPageUrl" d = None -> next_of (JObj d) = Ok JNull.
Proof. intros H. unfold next_url. simpl. now rewrite H. Qed.

(** What a request in the trace tells about the execution: the first
    one is the loop variable; a later one means the current iteration
    went round the loop. *)
Lemma fetch_loop_requested_inv (ap : bool) fuel n url acc last j x :
  nth_error (requested (loop ap fuel n url acc last)) j = Some x ->
  truthy url = true /\
  exists fuel', fuel = S fuel' /\
    match j with
    | O => x = url
    | S j' =>
        exists response body records url',
          requests_get n url hdrs = Ok response /\
          status_code response = 200%Z /\
          response_json response = Ok body /\
          records_of body = Ok records /\
          ap = true /\
          next_of body = Ok url' /\
          loop ap fuel n url acc last =
          sent url (loop ap fuel' (S n) url' (acc ++ records) (Some body)) /\
          nth_error (requested (loop ap fuel' (S n) url' (acc ++ records) (Some body))) j'
          = Some x
    end.
Proof.
  intros H. destruct (truthy url) eqn:Hu.
  2:{ rewrite fetch_loop_stop in H by assumption.
      destruct last; destruct j; discriminate. }
  split; [reflexivity |].
  destruct fuel as [| fuel'].
  { simpl in H. rewrite Hu in H. destruct j; discriminate. }
  exists fuel'. split; [reflexivity |].
  simpl in H |- *. rewrite Hu in H |- *. simpl in H |- *.
  destruct j as [| j']; [now injection H |].
  simpl in H.
  destruct (requests_get n url hdrs) as [response | e] eqn:Hg;
    [| destruct j'; discriminate].
  destruct (status_code response =? 200)%Z eqn:Hs; simpl in H;
    [| destruct j'; discriminate].
  apply Z.eqb_eq in Hs.
  destruct (response_json response) as [body | e] eqn:Hj;
    [| destruct j'; discriminate].
  destruct (records_of body) as [records | e] eqn:Hr;
    [| destruct j'; discriminate].
  destruct ap; [| destruct j'; discriminate].
  destruct (next_of body) as [url' | e] eqn:Hn;
    [| destruct j'; discriminate].
  exists response, body, records, url'.
  repeat split; try assumption; reflexivity.
Qed.

Lemma requested_sent url r : requested (sent url r) = url :: requested r.
Proof. reflexivity. Qed.

Lemma result_of_sent url r : result_of (sent url r) = result_of r.
Proof. reflexivity. Qed.

Lemma st_errors_sent url r : st_errors (sent url r) = st_errors r.
Proof. reflexivity. Qed.

(** A request answered with a status other than 200 ends the loop with
    [(None, None)], whatever has been aggregated so far. *)
Lemma fetch_loop_non200 (ap : bool) j :
  forall fuel n url acc last x response,
    nth_error (requested (loop ap fuel n url acc last)) j = Some x ->
    requests_get (n + j) x hdrs = Ok response ->
    status_code response <> 200%Z ->
    result_of (loop ap fuel n url acc last) = Returns (None, None) /\
    length (requested (loop ap fuel n url acc last)) = S j /\
    st_errors (loop ap fuel n url acc last) = [failed_to_fetch response].
Proof.
  induction j as [| j IH]; intros fuel n url acc last x response Hx Hg Hs.
  - apply fetch_loop_requested_inv in Hx.
    destruct Hx as [Hu [fuel' [-> ->]]].
    rewrite Nat.add_0_r in Hg. apply Z.eqb_neq in Hs.
    simpl. rewrite Hu, Hg, Hs. simpl. auto.
  - apply fetch_loop_requested_inv in Hx.
    destruct Hx as [Hu [fuel' [-> Hx]]].
    destruct Hx as (r1 & body & records & url' & _ & _ & _ & _ & _ & _ & Heq & Hx).
    rewrite Heq, requested_sent, result_of_sent, st_errors_sent.
    replace (n + S j) with (S n + j) in Hg by lia.
    destruct (IH _ _ _ _ _ _ _ Hx Hg Hs) as [H1 [H2 H3]].
    simpl. rewrite H2. auto.
Qed.

Local Abbreviation fetch := (fetch_data requests_get urljoin hdrs base endpoint_path).

(** C1.  If the request for page [k] (counted from 0) is answered with
    a status other than 200, [fetch_data] returns [(None, None)]: no
    record of the earlier pages is returned, that request is the last
    one, and the failure is reported once. *)
Theorem fetch_data_non200_returns_nothing
        (all_pages : bool) fuel full_url k url response :
  nth_error (requested (fetch all_pages fuel full_url)) k = Some url ->
  requests_get k url hdrs = Ok response ->
  status_code response <> 200%Z ->
  result_of (fetch all_pages fuel full_url) = Returns (None, None) /\
  length (requested (fetch all_pages fuel full_url)) = S k /\
  st_errors (fetch all_pages fuel full_url) = [failed_to_fetch response].
Proof.
  intros Hx Hg Hs. unfold fetch_data in *.
  now apply (fetch_loop_non200 all_pages k fuel 0 full_url [] None url response).
Qed.

(** *** Termination *)

(** Once a run ends without running out of fuel, more fuel changes
    nothing. *)
Lemma fetch_loop_fuel_mono (ap : bool) fuel :
  forall fuel' n url acc last,
    result_of (loop ap fuel n url acc last) <> OutOfFuel ->
    fuel <= fuel' ->
    loop ap fuel' n url acc last = loop ap fuel n url acc last.
Proof.
  induction fuel as [| fuel IH]; intros fuel' n url acc last Hr Hle.
  - destruct (truthy url) eqn:Hu.
    + simpl in Hr. rewrite Hu in Hr. now elim Hr.
    + now rewrite !fetch_loop_stop.
  - destruct fuel' as [| fuel']; [lia |].
    simpl in Hr |- *. destruct (truthy url); simpl in Hr |- *; [| reflexivity].
    f_equal.
    destruct (requests_get n url hdrs) as [response | e]; [| reflexivity].
    destruct (negb (status_code response =? 200)%Z); [reflexivity |].
    destruct (response_json response) as [body | e]; [| reflexivity].
    destruct (records_of body) as [records | e]; [| reflexivity].
    destruct ap; [| reflexivity].
    destruct (next_of body) as [url' | e]; [| reflexivity].
    apply IH; [exact Hr | lia].
Qed.

Local Abbreviation no_link_at := (no_link_at requests_get hdrs).

Lemma fetch_loop_terminates (ap : bool) fuel :
  forall n url acc last k,
    n <= k -> k - n < fuel ->
    (ap = false \/ no_link_at k) ->
    result_of (loop ap fuel n url acc last) <> OutOfFuel /\
    length (requested (loop ap fuel n url acc last)) <= S (k - n).
Proof.
  induction fuel as [| fuel IH]; intros n url acc last k Hn Hk Hstop; [lia |].
  destruct (truthy url) eqn:Hu.
  2:{ rewrite fetch_loop_stop by assumption.
      destruct last; simpl; split; (discriminate || lia). }
  simpl. rewrite Hu. simpl.
  destruct (requests_get n url hdrs) as [response | e] eqn:Hg;
    [| simpl; split; (discriminate || lia)].
  destruct (negb (status_code response =? 200)%Z);
    [simpl; split; (discriminate || lia) |].
  destruct (response_json response) as [body | e] eqn:Hj;
    [| simpl; split; (discriminate || lia)].
  destruct (records_of body) as [records | e] eqn:Hr;
    [| simpl; split; (discriminate || lia)].
  destruct ap; [| simpl; split; (discriminate || lia)].
  destruct Hstop as [Hap | Hno]; [discriminate |].
  destruct (next_of body) as [url' | e] eqn:Hnext;
    [| simpl; split; (discriminate || lia)].
  destruct (Nat.eq_dec n k) as [-> | Hne].
  - destruct (page_records_dict _ _ _ Hr) as [d ->].
    rewrite (next_of_no_link d (Hno _ _ _ Hg Hj)) in Hnext.
    injection Hnext as <-.
    rewrite fetch_loop_stop by reflexivity. simpl. split; [discriminate | lia].
  - destruct (IH (S n) url' (acc ++ records) (Some body) k) as [H1 H2];
      [lia | lia | now right |].
    split; [exact H1 |]. simpl. lia.
Qed.

(** C7.  The loop stops as soon as a page supplies no next-page link:
    if page [k] has no [nextPageUrl] field, or [all_pages] is false
    (then with [k = 0]), any fuel above [k] is enough for [fetch_data]
    to end by returning or raising, after at most [k + 1] requests,
    and more fuel gives the same run. *)
Theorem fetch_data_terminates (all_pages : bool) fuel full_url k :
  (all_pages = false /\ k = 0) \/ no_link_at k ->
  k < fuel ->
  result_of (fetch all_pages fuel full_url) <> OutOfFuel /\
  length (requested (fetch all_pages fuel full_url)) <= S k /\
  (forall fuel', fuel <= fuel' ->
                 fetch all_pages fuel' full_url = fetch all_pages fuel full_url).
Proof.
  intros Hstop Hk. unfold fetch_data.
  assert (H : result_of (loop all_pages fuel 0 full_url [] None) <> OutOfFuel /\
              length (requested (loop all_pages fuel 0 full_url [] None)) <= S (k - 0)).
  { apply fetch_loop_terminates; [lia | lia |].
    destruct Hstop as [[Hap _] | Hno]; [now left | now right]. }
  destruct H as [H1 H2]. rewrite Nat.sub_0_r in H2.
  repeat split; try assumption.
  intros fuel' Hle. now apply fetch_loop_fuel_mono.
Qed.

(** *** Following the next-page link *)

Lemma fetch_loop_next_url_safe k :
  forall fuel n url0 acc last url response d link url',
    nth_error (requested (loop true fuel n url0 acc last)) k = Some url ->
    requests_get (n + k) url hdrs = Ok response ->
    response_json response = Ok (JObj d) ->
    lookup "nextPageUrl" d = Some link ->
    nth_error (requested (loop true fuel n url0 acc last)) (S k) = Some url' ->
    truthy link = true /\ urljoin base link = Ok url'.
Proof.
  induction k as [| k IH];
    intros fuel n url0 acc last url response d link url' Hk Hg Hj Hl Hk'.
  - apply fetch_loop_requested_inv in Hk. destruct Hk as [_ [f0 [_ ->]]].
    apply fetch_loop_requested_inv in Hk'.
    destruct Hk' as [_ [f [_ Hk']]].
    destruct Hk' as (r1 & body & records & u & Hg1 & _ & Hj1 & _ & _ & Hn & _ & Hu).
    rewrite Nat.add_0_r in Hg. rewrite Hg in Hg1. injection Hg1 as <-.
    rewrite Hj in Hj1. injection Hj1 as <-.
    apply fetch_loop_requested_inv in Hu. destruct Hu as [Tu [_ [_ ->]]].
    rewrite (next_of_link d link Hl) in Hn.
    destruct (truthy link) eqn:Tl.
    + now split.
    + injection Hn as ->. congruence.
  - apply fetch_loop_requested_inv in Hk.
    destruct Hk as [_ [f [-> Hk]]].
    destruct Hk as (r1 & body & records & u & _ & _ & _ & _ & _ & _ & Heq & Hk).
    rewrite Heq, requested_sent in Hk'. simpl in Hk'.
    replace (n + S k) with (S n + k) in Hg by lia.
    exact (IH _ _ _ _ _ _ _ _ _ _ Hk Hg Hj Hl Hk').
Qed.

Lemma fetch_loop_next_url_live k :
  forall fuel n url0 acc last url response d records link url',
    nth_error (requested (loop true fuel n url0 acc last)) k = Some url ->
    requests_get (n + k) url hdrs = Ok response ->
    status_code response = 200%Z ->
    response_json response = Ok (JObj d) ->
    records_of (JObj d) = Ok records ->
    lookup "nextPageUrl" d = Some link ->
    truthy link = true ->
    urljoin base link = Ok url' ->
    truthy url' = true ->
    S k < fuel ->
    nth_error (requested (loop true fuel n url0 acc last)) (S k) = Some url'.
Proof.
  induction k as [| k IH];
    intros fuel n url0 acc last url response d records link url'
           Hk Hg Hs Hj Hr Hl Tl Hjoin Tu Hfuel.
  - apply fetch_loop_requested_inv in Hk. destruct Hk as [T0 [f [-> ->]]].
    rewrite Nat.add_0_r in Hg.
    assert (Hn : next_of (JObj d) = Ok url')
      by (rewrite (next_of_link d link Hl), Tl; exact Hjoin).
    rewrite (fetch_loop_step f n url0 acc last response (JObj d) records url')
      by assumption.
    rewrite requested_sent. simpl.
    destruct f as [| f]; [lia |]. simpl. rewrite Tu. reflexivity.
  - apply fetch_loop_requested_inv in Hk.
    destruct Hk as [_ [f [-> Hk]]].
    destruct Hk as (r1 & body & recs & u & _ & _ & _ & _ & _ & _ & Heq & Hk).
    rewrite Heq, requested_sent. simpl.
    replace (n + S k) with (S n + k) in Hg by lia.
    apply (IH f (S n) u _ _ url response d records link url');
      try assumption. lia.
Qed.

(** C6.  With [all_pages] set, when page [k] carries a [nextPageUrl]
    value, a request for the following page is sent only to what
    [urljoin] gives for the instance URL and that value; and it is sent
    there whenever the page was fetched and read without error, the
    value and the resolved URL are truthy and the fuel allows one more
    request. *)
Theorem next_request_is_urljoin fuel full_url k url response d link :
  nth_error (requested (fetch true fuel full_url)) k = Some url ->
  requests_get k url hdrs = Ok response ->
  response_json response = Ok (JObj d) ->
  lookup "nextPageUrl" d = Some link ->
  (forall url',
      nth_error (requested (fetch true fuel full_url)) (S k) = Some url' ->
      urljoin base link = Ok url') /\
  (forall url' records,
      status_code response = 200%Z ->
      records_of (JObj d) = Ok records ->
      truthy link = true ->
      urljoin base link = Ok url' ->
      truthy url' = true ->
      S k < fuel ->
      nth_error (requested (fetch true fuel full_url)) (S k) = Some url').
Proof.
  intros Hk Hg Hj Hl. unfold fetch_data in *. split.
  - intros url' Hk'.
    now apply (fetch_loop_next_url_safe k fuel 0 full_url [] None
                                        url response d link url').
  - intros url' records Hs Hr Tl Hjoin Tu Hfuel.
    now apply (fetch_loop_next_url_live k fuel 0 full_url [] None
                                        url response d records link url').
Qed.

(** *** Single pages *)

Lemma fetch_loop_unfold (ap : bool) fuel n url acc last :
  truthy url = true ->
  loop ap (S fuel) n url acc last =
  sent url
    match requests_get n url hdrs with
    | Raise e => finish (Raises e)
    | Ok response =>
        if negb (status_code response =? 200)%Z then
          st_error (failed_to_fetch response) (finish (Returns (None, None)))
        else
          match response_json response with
          | Raise e => finish (Raises e)
          | Ok body =>
              match records_of body with
              | Raise e => finish (Raises e)
              | Ok records =>
                  if ap then
                    match next_of body with
                    | Raise e => finish (Raises e)
                    | Ok url' =>
                        loop ap fuel (S n) url' (acc ++ records) (Some body)
                    end
                  else finish (Returns (Some (acc ++ records), Some body))
              end
          end
    end.
Proof. intros H. simpl. rewrite H. reflexivity. Qed.

(** A page without a [nextPageUrl] field ends the loop in the same way
    whether [all_pages] is set or not. *)
Lemma fetch_loop_last_page (ap : bool) fuel n url acc last response d :
  truthy url = true ->
  requests_get n url hdrs = Ok response ->
  status_code response = 200%Z ->
  response_json response = Ok (JObj d) ->
  lookup "nextPageUrl" d = None ->
  loop ap (S fuel) n url acc last =
  {| result_of :=
       match records_of (JObj d) with
       | Ok records => Returns (Some (acc ++ records), Some (JObj d))
       | Raise e => Raises e
       end;
     requested := [url];
     st_errors := [] |}.
Proof.
  intros Hu Hg Hs Hj Hl.
  rewrite fetch_loop_unfold, Hg, Hs, Hj by assumption. simpl.
  destruct (records_of (JObj d)) as [records | e]; [| reflexivity].
  destruct ap; [| reflexivity].
  rewrite (next_of_no_link d Hl), fetch_loop_stop by reflexivity.
  reflexivity.
Qed.

(** C3.  A single 200 response whose JSON object has no [nextPageUrl]
    field: exactly one GET request is sent, and the run is the same
    with [all_pages] true and false. *)
Theorem single_page_one_request (all_pages : bool) fuel full_url response d :
  truthy full_url = true ->
  requests_get 0 full_url hdrs = Ok response ->
  status_code response = 200%Z ->
  response_json response = Ok (JObj d) ->
  lookup "nextPageUrl" d = None ->
  requested (fetch all_pages (S fuel) full_url) = [full_url] /\
  fetch true (S fuel) full_url = fetch false (S fuel) full_url.
Proof.
  intros Hu Hg Hs Hj Hl. unfold fetch_data.
  rewrite !(fetch_loop_last_page _ fuel 0 full_url [] None response d)
    by assumption.
  split; reflexivity.
Qed.

(** C8.  For the empty object the record key is the literal
    ['records'], no exception is raised, and the page adds nothing:
    a loop that receives [{}] as its last page returns the list
    aggregated before it, unchanged. *)
Theorem empty_object_page_adds_nothing
        (all_pages : bool) fuel n url acc last response :
  determine_record_key endpoint_path (JObj []) = Ok "records" /\
  records_of (JObj []) = Ok [] /\
  (truthy url = true ->
   requests_get n url hdrs = Ok response ->
   status_code response = 200%Z ->
   response_json response = Ok (JObj []) ->
   loop all_pages (S fuel) n url acc last =
   {| result_of := Returns (Some acc, Some (JObj []));
      requested := [url];
      st_errors := [] |}).
Proof.
  split; [reflexivity | split; [reflexivity |]].
  intros Hu Hg Hs Hj.
  rewrite (fetch_loop_last_page _ fuel n url acc last response [])
    by (assumption || reflexivity).
  change (records_of (JObj [])) with (@Ok (list json) []).
  cbv iota beta. now rewrite app_nil_r.
Qed.

(** *** Chains of pages *)

Local Abbreviation chained := (chained requests_get urljoin hdrs base endpoint_path).

Lemma fetch_loop_chained pages :
  forall p0 fuel n acc last,
    chained n (p0 :: pages) ->
    length (p0 :: pages) <= fuel ->
    loop true fuel n (page_url p0) acc last =
    {| result_of :=
         Returns (Some (acc ++ concat (map page_items (p0 :: pages))),
                  last_body (p0 :: pages));
       requested := map page_url (p0 :: pages);
       st_errors := [] |}.
Proof.
  induction pages as [| q rest IH]; intros p0 fuel n acc last Hc Hfuel.
  - destruct Hc as [[Hu [response [Hg [Hs [Hj Hr]]]]] [Hl _]].
    destruct fuel as [| fuel]; [simpl in Hfuel; lia |].
    rewrite (fetch_loop_last_page true fuel n _ acc last response (page_body p0))
      by assumption.
    rewrite Hr. simpl. now rewrite app_nil_r.
  - destruct Hc as [[Hu [response [Hg [Hs [Hj Hr]]]]] [[link [Hl [Tl Hjoin]]] Hc]].
    destruct fuel as [| fuel]; [simpl in Hfuel; lia |].
    rewrite (fetch_loop_step fuel n _ acc last response (JObj (page_body p0))
                             (page_items p0) (page_url q));
      try assumption.
    2:{ now rewrite (next_of_link _ link Hl), Tl. }
    rewrite (IH q fuel (S n)) by (assumption || (simpl in Hfuel |- *; lia)).
    unfold sent. cbn [result_of requested st_errors].
    rewrite <- app_assoc. reflexivity.
Qed.

(** C2, as amended.  With [all_pages] set, a chain of [N >= 1] pages,
    each answered with status 200, each but the last carrying a truthy
    [nextPageUrl] that resolves to the next page's URL and the last
    carrying none, is fetched with exactly [N] GET requests, and the
    records of all pages are returned concatenated in page order. *)
Theorem fetch_data_follows_chain pages fuel full_url :
  1 <= length pages ->
  hd_error (map page_url pages) = Some full_url ->
  chained 0 pages ->
  length pages <= fuel ->
  fetch true fuel full_url = all_pages_run pages /\
  length (requested (fetch true fuel full_url)) = length pages /\
  result_of (fetch true fuel full_url) =
  Returns (Some (concat (map page_items pages)), last_body pages).
Proof.
  intros HN Hhd Hc Hfuel.
  destruct pages as [| p0 pages]; [simpl in HN; lia |].
  injection Hhd as <-.
  assert (H : fetch true fuel (page_url p0) = all_pages_run (p0 :: pages)).
  { unfold fetch_data. now rewrite (fetch_loop_chained pages p0 fuel 0 [] None). }
  rewrite H. unfold all_pages_run. cbn [result_of requested].
  rewrite length_map. auto.
Qed.

(** *** Where request URLs come from *)

Lemma fetch_loop_requested_resolved (ap : bool) (P : json -> Prop) fuel :
  (forall ref u, urljoin base ref = Ok u -> P u) ->
  forall n url acc last,
    P url -> Forall P (requested (loop ap fuel n url acc last)).
Proof.
  intros HP. induction fuel as [| fuel IH]; intros n url acc last Hurl.
  - simpl. destruct (truthy url); simpl; [constructor |].
    destruct last; constructor.
  - destruct (truthy url) eqn:Hu.
    2:{ rewrite fetch_loop_stop by assumption. destruct last; constructor. }
    rewrite fetch_loop_unfold by assumption. rewrite requested_sent.
    constructor; [exact Hurl |].
    destruct (requests_get n url hdrs) as [response | e]; [| constructor].
    destruct (negb (status_code response =? 200)%Z); [constructor |].
    destruct (response_json response) as [body | e]; [| constructor].
    destruct (records_of body) as [records | e] eqn:Hr; [| constructor].
    destruct ap; [| constructor].
    destruct (next_of body) as [url' | e] eqn:Hn; [| constructor].
    destruct (truthy url') eqn:Tu.
    2:{ rewrite fetch_loop_stop by assumption. constructor. }
    apply IH.
    destruct (page_records_dict _ _ _ Hr) as [d ->].
    unfold next_url in Hn. simpl in Hn.
    destruct (truthy _) eqn:Tl in Hn.
    + exact (HP _ _ Hn).
    + injection Hn as <-. congruence.
Qed.

End FetchProperties.

(** ** The instance URL *)

Lemma last_default_irrelevant {A : Type} (x : A) (l : list A) (d d' : A) :
  last (x :: l) d = last (x :: l) d'.
Proof.
  revert x. induction l as [| y l IH]; intros x; [reflexivity |].
  change (last (y :: l) d = last (y :: l) d'). apply IH.
Qed.

Lemma lstrip_spec (s : string) :
  exists pre,
    s = (pre ++ lstrip s)%string /\ all_space pre /\
    match lstrip s with
    | EmptyString => True
    | String c _ => isspace c = false
    end.
Proof.
  induction s as [| c r [pre [Heq [Hsp Hhd]]]].
  - exists EmptyString. repeat split. constructor.
  - simpl. destruct (isspace c) eqn:Hc.
    + exists (String c pre). simpl. rewrite <- Heq. repeat split; [| exact Hhd].
      constructor; assumption.
    + exists EmptyString. repeat split; [constructor | exact Hc].
Qed.

Lemma rstrip_spec (s : string) :
  exists post, s = (rstrip s ++ post)%string /\ all_space post.
Proof.
  induction s as [| c r [post [Heq Hsp]]].
  - exists EmptyString. split; [reflexivity | constructor].
  - simpl. destruct (rstrip r) as [| c' r'] eqn:Er.
    + destruct (isspace c) eqn:Hc.
      * exists (String c post). simpl in *. subst r.
        split; [reflexivity | constructor; assumption].
      * exists post. simpl in *. split; [congruence | assumption].
    + exists post. simpl in *. split; [congruence | assumption].
Qed.

Lemma rstrip_head (s : string) (c : ascii) (r : string) :
  rstrip s = String c r -> exists r0, s = String c r0.
Proof.
  destruct s as [| a s']; simpl; [discriminate |].
  destruct (rstrip s'); [destruct (isspace a); [discriminate |] |];
    intros [= <- _]; now eexists.
Qed.

Lemma rstrip_last (s : string) :
  forall c r, rstrip s = String c r ->
              isspace (last (list_ascii_of_string (String c r)) c) = false.
Proof.
  induction s as [| a s' IH]; simpl; intros c r H; [discriminate |].
  destruct (rstrip s') as [| b r'] eqn:Er.
  - destruct (isspace a) eqn:Ha; [discriminate |].
    injection H as <- <-. exact Ha.
  - injection H as <- <-.
    specialize (IH b r' eq_refl).
    change (isspace (last (list_ascii_of_string (String b r')) a) = false).
    simpl list_ascii_of_string in *.
    now rewrite (last_default_irrelevant b _ a b).
Qed.

(** [strip] removes whitespace from both ends and nothing else. *)
Lemma strip_spec (s : string) :
  exists pre post,
    s = (pre ++ strip s ++ post)%string /\
    all_space pre /\ all_space post /\ trimmed (strip s).
Proof.
  destruct (lstrip_spec s) as [pre [Hl [Hpre Hhd]]].
  destruct (rstrip_spec (lstrip s)) as [post [Hr Hpost]].
  exists pre, post. unfold strip. rewrite <- Hr.
  repeat split; try assumption.
  unfold trimmed.
  destruct (rstrip (lstrip s)) as [| c r] eqn:E; [exact I |].
  simpl list_ascii_of_string. split.
  - destruct (rstrip_head _ _ _ E) as [r0 E0]. now rewrite E0 in Hhd.
  - exact (rstrip_last _ _ _ E).
Qed.

Lemma normalize_instance_url_scheme (loaded : string) :
  http_scheme (JStr (normalize_instance_url loaded)) = true.
Proof.
  unfold normalize_instance_url, http_scheme.
  destruct (startswith "http://" (strip loaded) || startswith "https://" (strip loaded))
    eqn:E; simpl negb; cbv iota.
  - exact E.
  - unfold startswith. simpl. now destruct (strip loaded).
Qed.

(** C10, as amended.  When [main] gets as far as fetching, the instance
    URL it uses is the loaded one with the whitespace at both ends
    removed and, unless that already starts with ['http://'] or
    ['https://'], with ['https://'] put in front; so it starts with one
    of the two, and every URL requested is what [urljoin] returned for
    that instance URL and some reference. *)
Theorem main_instance_url_has_scheme
        (requests_get : nat -> json -> headers -> result http_response)
        (urljoin : string -> json -> result json) (format : json -> string)
        fuel auth_data endpoint_path all_pages r :
  main_fetch requests_get urljoin format fuel auth_data endpoint_path all_pages
  = MainFetched r ->
  exists creds loaded pre post,
    load_auth_credentials auth_data = Ok creds /\
    instance_url creds = JStr loaded /\
    loaded = (pre ++ strip loaded ++ post)%string /\
    all_space pre /\ all_space post /\ trimmed (strip loaded) /\
    normalize_instance_url loaded =
    (if startswith "http://" (strip loaded) || startswith "https://" (strip loaded)
     then strip loaded else ("https://" ++ strip loaded)%string) /\
    http_scheme (JStr (normalize_instance_url loaded)) = true /\
    Forall (fun url => exists ref, urljoin (normalize_instance_url loaded) ref = Ok url)
           (requested r).
Proof.
  unfold main_fetch. intros H.
  destruct (load_auth_credentials auth_data) as [creds | e]; [| discriminate].
  unfold main_instance_url in H.
  destruct (instance_url creds) as [| | | | loaded | |] eqn:Hi; try discriminate.
  destruct endpoint_path as [| c path] eqn:He; [discriminate |].
  destruct (urljoin (normalize_instance_url loaded) (JStr (String c path)))
    as [full_url | e] eqn:Hj; [| discriminate].
  injection H as <-.
  destruct (strip_spec loaded) as [pre [post [Heq [Hpre [Hpost Htrim]]]]].
  exists creds, loaded, pre, post.
  repeat split; try assumption.
  - unfold normalize_instance_url.
    destruct (startswith "http://" (strip loaded) || startswith "https://" (strip loaded));
      reflexivity.
  - apply normalize_instance_url_scheme.
  - unfold fetch_data. apply fetch_loop_requested_resolved.
    + intros ref u Hu. now exists ref.
    + now exists (JStr (String c path)).
Qed.

(** ** The sample org, run through the theorems *)

Lemma recipes_pages_chained :
  chained sample_get sample_urljoin sample_headers sample_base recipes_path
          0 recipes_pages.
Proof.
  simpl. split; [| split; [| split; [| split]]].
  - split; [reflexivity |].
    exists (ok_response recipes_body1). repeat split; reflexivity.
  - exists (JStr "/services/data/v60.0/wave/recipes?page=2").
    repeat split; reflexivity.
  - split; [reflexivity |].
    exists (ok_response recipes_body2). repeat split; reflexivity.
  - reflexivity.
  - exact I.
Qed.

Lemma fetch_data_non200_returns_nothing_witness :
  result_of (sample_fetch jobs_path true) = Returns (None, None) /\
  length (requested (sample_fetch jobs_path true)) = 2 /\
  st_errors (sample_fetch jobs_path true) =
  ["Failed to fetch data: 503 Service Unavailable"].
Proof.
  apply (fetch_data_non200_returns_nothing
           sample_get sample_urljoin sample_headers sample_base jobs_path
           true 10 (JStr (sample_base ++ jobs_path)) 1
           (JStr (sample_base ++ jobs_path ++ "?page=2"))
           (error_response 503 "Service Unavailable")).
  - reflexivity.
  - reflexivity.
  - discriminate.
Defined.

Lemma fetch_data_follows_chain_witness :
  sample_fetch recipes_path true = all_pages_run recipes_pages /\
  length (requested (sample_fetch recipes_path true)) = 2 /\
  result_of (sample_fetch recipes_path true) =
  Returns (Some [recipe "05v1" "Sales"; recipe "05v2" "Leads"; recipe "05v3" "Cases"],
           Some (JObj recipes_body2)).
Proof.
  apply (fetch_data_follows_chain
           sample_get sample_urljoin sample_headers sample_base recipes_path
           recipes_pages 10 (JStr (sample_base ++ recipes_path))).
  - simpl. lia.
  - reflexivity.
  - exact recipes_pages_chained.
  - simpl. lia.
Defined.

(** C2 as worded does not mention [all_pages]: on the same chain of two
    pages, with the flag off, one request is sent and only the first
    page's records come back. *)
Lemma chain_cut_short_without_all_pages :
  chained sample_get sample_urljoin sample_headers sample_base recipes_path
          0 recipes_pages /\
  length recipes_pages = 2 /\
  hd_error (map page_url recipes_pages) = Some (JStr (sample_base ++ recipes_path)) /\
  requested (sample_fetch recipes_path false) = [JStr (sample_base ++ recipes_path)] /\
  length (requested (sample_fetch recipes_path false)) <> length recipes_pages /\
  result_of (sample_fetch recipes_path false) =
  Returns (Some [recipe "05v1" "Sales"; recipe "05v2" "Leads"],
           Some (JObj recipes_body1)) /\
  result_of (sample_fetch recipes_path false) <>
  Returns (Some (concat (map page_items recipes_pages)), last_body recipes_pages).
Proof.
  split; [exact recipes_pages_chained |].
  repeat split; try reflexivity; discriminate.
Qed.

Lemma single_page_one_request_witness :
  requested
    (fetch_data sample_get sample_urljoin sample_headers sample_base recipes_path
                false 1 (JStr (sample_base ++ recipes_path ++ "?page=2")))
  = [JStr (sample_base ++ recipes_path ++ "?page=2")] /\
  fetch_data sample_get sample_urljoin sample_headers sample_base recipes_path
             true 1 (JStr (sample_base ++ recipes_path ++ "?page=2"))
  = fetch_data sample_get sample_urljoin sample_headers sample_base recipes_path
               false 1 (JStr (sample_base ++ recipes_path ++ "?page=2")).
Proof.
  apply (single_page_one_request
           sample_get sample_urljoin sample_headers sample_base recipes_path
           false 0 (JStr (sample_base ++ recipes_path ++ "?page=2"))
           (ok_response recipes_body2) recipes_body2); reflexivity.
Defined.

Lemma next_request_is_urljoin_witness :
  (forall url',
      nth_error (requested (sample_fetch recipes_path true)) 1 = Some url' ->
      sample_urljoin sample_base (JStr "/services/data/v60.0/wave/recipes?page=2")
      = Ok url') /\
  nth_error (requested (sample_fetch recipes_path true)) 1 =
  Some (JStr (sample_base ++ recipes_path ++ "?page=2")).
Proof.
  destruct (next_request_is_urljoin
              sample_get sample_urljoin sample_headers sample_base recipes_path
              10 (JStr (sample_base ++ recipes_path)) 0
              (JStr (sample_base ++ recipes_path))
              (ok_response recipes_body1) recipes_body1
              (JStr "/services/data/v60.0/wave/recipes?page=2"))
    as [H1 H2]; try reflexivity.
  split; [exact H1 |].
  apply (H2 _ [recipe "05v1" "Sales"; recipe "05v2" "Leads"]);
    try reflexivity. lia.
Defined.

Lemma fetch_data_terminates_witness :
  let run2 := fetch_data (scripted_get two_page_script) sample_urljoin sample_headers
                         sample_base recipes_path true 2
                         (JStr (sample_base ++ recipes_path)) in
  result_of run2 <> OutOfFuel /\
  length (requested run2) <= 2 /\
  (forall fuel', 2 <= fuel' ->
     fetch_data (scripted_get two_page_script) sample_urljoin sample_headers
                sample_base recipes_path true fuel'
                (JStr (sample_base ++ recipes_path)) = run2).
Proof.
  apply (fetch_data_terminates
           (scripted_get two_page_script) sample_urljoin sample_headers
           sample_base recipes_path true 2 (JStr (sample_base ++ recipes_path)) 1).
  - right. intros url response d Hg Hj.
    unfold scripted_get in Hg. simpl in Hg. injection Hg as <-.
    simpl in Hj. injection Hj as <-. reflexivity.
  - lia.
Defined.

Lemma empty_object_page_adds_nothing_witness :
  determine_record_key empty_path (JObj []) = Ok "records" /\
  page_records empty_path (JObj []) = Ok [] /\
  fetch_loop sample_get sample_urljoin sample_headers sample_base empty_path
             true 1 3 (JStr (sample_base ++ empty_path))
             [recipe "05v1" "Sales"] (Some (JObj recipes_body1))
  = {| result_of := Returns (Some [recipe "05v1" "Sales"], Some (JObj []));
       requested := [JStr (sample_base ++ empty_path)];
       st_errors := [] |}.
Proof.
  destruct (empty_object_page_adds_nothing
              sample_get sample_urljoin sample_headers sample_base empty_path
              true 0 3 (JStr (sample_base ++ empty_path))
              [recipe "05v1" "Sales"] (Some (JObj recipes_body1))
              (ok_response []))
    as [H1 [H2 H3]].
  split; [exact H1 | split; [exact H2 |]].
  apply H3; reflexivity.
Defined.

Lemma main_instance_url_has_scheme_witness :
  exists creds loaded pre post,
    load_auth_credentials sample_auth = Ok creds /\
    instance_url creds = JStr loaded /\
    loaded = (pre ++ strip loaded ++ post)%string /\
    all_space pre /\ all_space post /\ trimmed (strip loaded) /\
    normalize_instance_url loaded =
    (if startswith "http://" (strip loaded) || startswith "https://" (strip loaded)
     then strip loaded else ("https://" ++ strip loaded)%string) /\
    http_scheme (JStr (normalize_instance_url loaded)) = true /\
    Forall (fun url =>
              exists ref, sample_urljoin (normalize_instance_url loaded) ref = Ok url)
           (requested (sample_fetch recipes_path true)).
Proof.
  apply (main_instance_url_has_scheme
           sample_get sample_urljoin sample_format 10 sample_auth recipes_path true
           (sample_fetch recipes_path true)).
  reflexivity.
Defined.

(** C10 as worded promises an http(s) scheme for every request URL; the
    instance URL has one, but the request URL is what [urljoin] returns,
    and for an endpoint that is an absolute URL of another scheme that
    is the endpoint itself. *)
Lemma request_url_scheme_not_guaranteed :
  main_fetch sample_get sample_urljoin sample_format 10 sample_auth
             "ftp://files.example.com/pub/recipes" true
  = MainFetched {| result_of := Raises RequestException;
                   requested := [JStr "ftp://files.example.com/pub/recipes"];
                   st_errors := [] |} /\
  ~ requests_have_http_scheme
      (main_fetch sample_get sample_urljoin sample_format 10 sample_auth
                  "ftp://files.example.com/pub/recipes" true).
Proof.
  split; [reflexivity |]. simpl. discriminate.
Qed.

(* ================================================================== *)
(** * Further properties of the script *)

(** ** Credentials *)

Ltac lookup_cases d :=
  repeat match goal with
         | |- context [lookup ?k d] => destruct (lookup k d) eqn:?; simpl
         | |- context [truthy ?v] => destruct (truthy v) eqn:?; simpl
         end.

(** X1.  Credentials that are not a JSON object (a list, a string, a
    number, [null]) make [load_auth_credentials] raise [AttributeError],
    not the missing-credentials [ValueError]. *)
Theorem load_auth_credentials_not_an_object (v : json) :
  (forall d, v <> JObj d) -> load_auth_credentials v = Raise AttributeError.
Proof.
  intros H. destruct v; try reflexivity. now elim (H d).
Qed.

Lemma load_auth_credentials_not_an_object_witness :
  load_auth_credentials (JArr [JStr "00Dxx0000001gPL"]) = Raise AttributeError.
Proof.
  apply load_auth_credentials_not_an_object. intros d. discriminate.
Defined.

(** X2.  When [load_auth_credentials] returns, the input was an object,
    both returned values are truthy, and each is the value the object
    holds under one of the two spellings of its key. *)
Theorem load_auth_credentials_returns_truthy (v : json) (c : credentials) :
  load_auth_credentials v = Ok c ->
  exists d,
    v = JObj d /\
    truthy (access_token c) = true /\ truthy (instance_url c) = true /\
    (lookup "access_token" d = Some (access_token c) \/
     lookup "accessToken" d = Some (access_token c)) /\
    (lookup "instance_url" d = Some (instance_url c) \/
     lookup "instanceUrl" d = Some (instance_url c)).
Proof.
  destruct v; try discriminate. intros H. exists d. split; [reflexivity |].
  revert H. unfold load_auth_credentials, py_or. rewrite !py_get_obj. simpl.
  destruct (lookup "access_token" d) as [t |] eqn:Ht; simpl;
    [destruct (truthy t) eqn:Tt; simpl |];
    (destruct (lookup "accessToken" d) as [t' |] eqn:Ht'; simpl;
     [try destruct (truthy t') eqn:Tt'; simpl |]);
    (destruct (lookup "instance_url" d) as [u |] eqn:Hu; simpl;
     [destruct (truthy u) eqn:Tu; simpl |]);
    (destruct (lookup "instanceUrl" d) as [u' |] eqn:Hu'; simpl;
     [try destruct (truthy u') eqn:Tu'; simpl |]);
    try rewrite Tt; try rewrite Tt'; try rewrite Tu; try rewrite Tu'; simpl;
    try discriminate; intros [= <-]; simpl; auto.
Qed.

Lemma load_auth_credentials_returns_truthy_witness :
  exists d,
    sample_auth = JObj d /\
    truthy (JStr "00Dxx0000001gPL") = true /\
    truthy (JStr "  acme.my.salesforce.com ") = true /\
    (lookup "access_token" d = Some (JStr "00Dxx0000001gPL") \/
     lookup "accessToken" d = Some (JStr "00Dxx0000001gPL")) /\
    (lookup "instance_url" d = Some (JStr "  acme.my.salesforce.com ") \/
     lookup "instanceUrl" d = Some (JStr "  acme.my.salesforce.com ")).
Proof.
  apply (load_auth_credentials_returns_truthy
           sample_auth
           {| access_token := JStr "00Dxx0000001gPL";
              instance_url := JStr "  acme.my.salesforce.com " |}).
  reflexivity.
Defined.

(** X3.  Not only the empty string: any falsy value ([null], [0],
    [false], an empty list or object) under one of the four keys is
    treated as if the key were absent. *)
Theorem load_auth_credentials_falsy_is_absent (d : dict) (k : string) (v : json) :
  In k ["access_token"; "accessToken"; "instance_url"; "instanceUrl"] ->
  lookup k d = Some v ->
  truthy v = false ->
  load_auth_credentials (JObj d) = load_auth_credentials (JObj (remove_key k d)).
Proof.
  intros Hk Hv Tv. unfold load_auth_credentials, py_or.
  rewrite !py_get_obj, !lookup_remove_key. simpl in Hk.
  destruct Hk as [<- | [<- | [<- | [<- | []]]]]; simpl; rewrite Hv; simpl;
    lookup_cases d; try rewrite Tv; simpl; try reflexivity; congruence.
Qed.

Lemma load_auth_credentials_falsy_is_absent_witness :
  load_auth_credentials
    (JObj [("access_token", JNull); ("accessToken", JStr "00Dcamel");
           ("instance_url", JStr "https://acme.my.salesforce.com")]) =
  load_auth_credentials
    (JObj (remove_key "access_token"
             [("access_token", JNull); ("accessToken", JStr "00Dcamel");
              ("instance_url", JStr "https://acme.my.salesforce.com")])).
Proof.
  apply (load_auth_credentials_falsy_is_absent _ "access_token" JNull).
  - simpl. tauto.
  - reflexivity.
  - reflexivity.
Defined.

(** ** Record key *)

Lemma last_sep_decomposition (sep : ascii) (s : string) :
  In sep (list_ascii_of_string s) ->
  exists p t, s = (p ++ String sep t)%string /\ ~ In sep (list_ascii_of_string t).
Proof.
  induction s as [| c r IH]; simpl; [tauto |]. intros H.
  destruct (in_dec ascii_dec sep (list_ascii_of_string r)) as [Hin | Hout].
  - destruct (IH Hin) as [p [t [-> Ht]]]. now exists (String c p), t.
  - destruct H as [-> | H]; [| contradiction]. now exists EmptyString, r.
Qed.

Lemma append_char_assoc (p t : string) (c : ascii) :
  ((p ++ String c EmptyString) ++ t)%string = (p ++ String c t)%string.
Proof.
  induction p as [| a p IH]; simpl; [reflexivity | now rewrite IH].
Qed.

(** X4.  The endpoint key is the longest suffix of the path without a
    ['/']: it contains no ['/'], and what precedes it in the path is
    empty or ends with ['/']. *)
Theorem endpoint_key_of_is_last_segment (path : string) :
  ~ In "/"%char (list_ascii_of_string (endpoint_key_of path)) /\
  exists prefix,
    path = (prefix ++ endpoint_key_of path)%string /\
    (prefix = EmptyString \/ exists q, prefix = (q ++ "/")%string).
Proof.
  destruct (in_dec ascii_dec "/"%char (list_ascii_of_string path)) as [Hin | Hout].
  - destruct (last_sep_decomposition _ _ Hin) as [p [t [-> Ht]]].
    rewrite (proj1 (endpoint_key_of_segment p t Ht)). split; [exact Ht |].
    exists (p ++ "/")%string. split.
    + now rewrite append_char_assoc.
    + right. now exists p.
  - rewrite (proj2 (endpoint_key_of_segment EmptyString path Hout)).
    split; [exact Hout |]. exists EmptyString. split; [reflexivity | now left].
Qed.

(** X5.  An endpoint path that ends with ['/'] has the empty string as
    its key; unless the object has an empty-string key, the record key
    is then the first key of the object (['records'] for [{}]). *)
Theorem determine_record_key_trailing_slash (prefix : string) (d : dict) :
  ~ In EmptyString (keys d) ->
  endpoint_key_of (prefix ++ "/") = EmptyString /\
  determine_record_key (prefix ++ "/") (JObj d) = Ok (hd "records" (keys d)).
Proof.
  intros H.
  assert (E : endpoint_key_of (prefix ++ "/") = EmptyString)
    by (apply (endpoint_key_of_segment prefix EmptyString); simpl; tauto).
  split; [exact E |].
  unfold determine_record_key. rewrite E. unfold py_contains, bind.
  destruct (existsb (String.eqb EmptyString) (keys d)) eqn:Ex; [| reflexivity].
  apply existsb_eqb_In in Ex. contradiction.
Qed.

Lemma determine_record_key_trailing_slash_witness :
  endpoint_key_of ("/services/data/v60.0/wave/recipes" ++ "/") = EmptyString /\
  determine_record_key ("/services/data/v60.0/wave/recipes" ++ "/")
                       (JObj recipes_body1) = Ok "nextPageUrl".
Proof.
  apply (determine_record_key_trailing_slash
           "/services/data/v60.0/wave/recipes" recipes_body1).
  simpl. intros H. repeat (destruct H as [H | H]; [discriminate |]). exact H.
Defined.

(** X6.  On a JSON object [determine_record_key] never raises, and the
    key it returns is a key of the object, except for the empty object
    where it is ['records']. *)
Theorem determine_record_key_is_a_key (endpoint_path : string) (d : dict) :
  exists k,
    determine_record_key endpoint_path (JObj d) = Ok k /\
    (In k (keys d) \/ (d = [] /\ k = "records")).
Proof.
  unfold determine_record_key. simpl.
  destruct (existsb _ (keys d)) eqn:Ex.
  - eexists. split; [reflexivity |]. left. now apply existsb_eqb_In.
  - destruct d as [| [k v] rest]; eexists; (split; [reflexivity |]).
    + now right.
    + left. simpl. now left.
Qed.

(** X7.  When the object lacks the endpoint key and the value under its
    first key is a number, a boolean or [null], reading the page's
    records raises [TypeError]: the value is handed to [list.extend]. *)
Theorem page_records_scalar_first_key
        (endpoint_path k : string) (v : json) (rest : dict) :
  ~ In (endpoint_key_of endpoint_path) (keys ((k, v) :: rest)) ->
  not_iterable v = true ->
  page_records endpoint_path (JObj ((k, v) :: rest)) = Raise TypeError.
Proof.
  intros Hk Hv. unfold page_records, determine_record_key, py_contains, bind.
  destruct (existsb (String.eqb (endpoint_key_of endpoint_path))
                    (keys ((k, v) :: rest))) eqn:Ex.
  { apply existsb_eqb_In in Ex. contradiction. }
  simpl. rewrite String.eqb_refl. simpl.
  destruct v; try discriminate; reflexivity.
Qed.

Lemma page_records_scalar_first_key_witness :
  page_records "/services/data/v60.0/query"
               (JObj [("totalSize", JInt 1); ("done", JBool true);
                      ("records", JArr [JObj [("Id", JStr "001xx")]])])
  = Raise TypeError.
Proof.
  apply page_records_scalar_first_key.
  - simpl. intros H. repeat (destruct H as [H | H]; [discriminate |]). exact H.
  - reflexivity.
Defined.

(** ** The pagination loop, continued *)

Lemma page_records_not_object (endpoint_path : string) (body : json) :
  (forall d, body <> JObj d) ->
  exists e, page_records endpoint_path body = Raise e /\
            (e = TypeError \/ e = AttributeError).
Proof.
  intros H. unfold page_records, determine_record_key.
  destruct body; simpl; eauto.
  - destruct (substr _ s); simpl; eauto.
  - destruct (existsb _ l); simpl; eauto.
  - now elim (H d).
Qed.

Section FetchInvariants.

Variable requests_get : nat -> json -> headers -> result http_response.
Variable urljoin : string -> json -> result json.
Variable hdrs : headers.
Variable base : string.
Variable endpoint_path : string.

Local Abbreviation loop := (fetch_loop requests_get urljoin hdrs base endpoint_path).
Local Abbreviation fetch := (fetch_data requests_get urljoin hdrs base endpoint_path).
Local Abbreviation records_of := (page_records endpoint_path).
Local Abbreviation next_of := (next_url urljoin base).
Local Abbreviation fetched := (fetched_pages requests_get hdrs endpoint_path).

(** A page whose records cannot be read ends the loop with the
    exception that reading them raised. *)
Lemma fetch_loop_unreadable_page (ap : bool) j :
  forall fuel n url acc last x response body e,
    nth_error (requested (loop ap fuel n url acc last)) j = Some x ->
    requests_get (n + j) x hdrs = Ok response ->
    status_code response = 200%Z ->
    response_json response = Ok body ->
    records_of body = Raise e ->
    result_of (loop ap fuel n url acc last) = Raises e /\
    length (requested (loop ap fuel n url acc last)) = S j /\
    st_errors (loop ap fuel n url acc last) = [].
Proof.
  induction j as [| j IH]; intros fuel n url acc last x response body e Hx Hg Hs Hj Hr.
  - apply fetch_loop_requested_inv in Hx.
    destruct Hx as [Hu [fuel' [-> ->]]].
    rewrite Nat.add_0_r in Hg.
    rewrite fetch_loop_unfold, Hg, Hs, Hj, Hr by assumption. simpl. auto.
  - apply fetch_loop_requested_inv in Hx.
    destruct Hx as [Hu [fuel' [-> Hx]]].
    destruct Hx as (r1 & b1 & records & url' & _ & _ & _ & _ & _ & _ & Heq & Hx).
    rewrite Heq, requested_sent, result_of_sent, st_errors_sent.
    replace (n + S j) with (S n + j) in Hg by lia.
    destruct (IH _ _ _ _ _ _ _ _ _ Hx Hg Hs Hj Hr) as [H1 [H2 H3]].
    simpl. rewrite H2. auto.
Qed.

(** X8.  A page answered with status 200 whose JSON body is not an
    object (a list, a string, a number, [null]) makes [fetch_data] raise
    [TypeError] or [AttributeError] right after that request; nothing is
    returned and nothing is reported by [fetch_data] itself. *)
Theorem fetch_data_body_not_object
        (all_pages : bool) fuel full_url k url response body :
  nth_error (requested
       (fetch_data requests_get urljoin hdrs base endpoint_path
          all_pages fuel full_url)) k = Some url ->
  requests_get k url hdrs = Ok response ->
  status_code response = 200%Z ->
  response_json response = Ok body ->
  (forall d, body <> JObj d) ->
  (result_of
     (fetch_data requests_get urljoin hdrs base endpoint_path
        all_pages fuel full_url) = Raises TypeError \/
   result_of
    (fetch_data requests_get urljoin hdrs base endpoint_path
       all_pages fuel full_url) = Raises AttributeError) /\
  length (requested
       (fetch_data requests_get urljoin hdrs base endpoint_path
          all_pages fuel full_url)) = S k /\
  st_errors
    (fetch_data requests_get urljoin hdrs base endpoint_path
       all_pages fuel full_url) = [].
Proof.
  intros Hx Hg Hs Hj Hb.
  destruct (page_records_not_object endpoint_path body Hb) as [e [Hr He]].
  unfold fetch_data in *.
  destruct (fetch_loop_unreadable_page all_pages k fuel 0 full_url [] None
              url response body e Hx Hg Hs Hj Hr) as [H1 [H2 H3]].
  rewrite H1. repeat split; try assumption.
  destruct He as [-> | ->]; [now left | now right].
Qed.

Lemma fetch_loop_shape (ap : bool) fuel :
  forall n url acc last0,
    last0 = None \/ (exists d, last0 = Some (JObj d)) ->
    match result_of (loop ap fuel n url acc last0) with
    | Returns (None, l) =>
        l = None /\
        exists response,
          st_errors (loop ap fuel n url acc last0) = [failed_to_fetch response] /\
          status_code response <> 200%Z
    | Returns (Some recs, l) =>
        st_errors (loop ap fuel n url acc last0) = [] /\
        (exists d, l = Some (JObj d)) /\
        (last0 = None -> requested (loop ap fuel n url acc last0) <> [])
    | Raises _ => st_errors (loop ap fuel n url acc last0) = []
    | OutOfFuel => st_errors (loop ap fuel n url acc last0) = []
    end.
Proof.
  induction fuel as [| fuel IH]; intros n url acc last0 Hlast.
  - simpl. destruct (truthy url); simpl; [reflexivity |].
    destruct Hlast as [-> | [d ->]]; simpl; [reflexivity |].
    repeat split; [now exists d | discriminate].
  - destruct (truthy url) eqn:Hu.
    2:{ rewrite fetch_loop_stop by assumption.
        destruct Hlast as [-> | [d ->]]; simpl; [reflexivity |].
        repeat split; [now exists d | discriminate]. }
    rewrite fetch_loop_unfold by assumption.
    rewrite result_of_sent, st_errors_sent, requested_sent.
    destruct (requests_get n url hdrs) as [response | e]; [| reflexivity].
    destruct (status_code response =? 200)%Z eqn:Hs; simpl.
    2:{ split; [reflexivity |]. exists response. split; [reflexivity |].
        now apply Z.eqb_neq. }
    destruct (response_json response) as [body | e]; [| reflexivity].
    destruct (records_of body) as [records | e] eqn:Hr; [| reflexivity].
    destruct (page_records_dict _ _ _ Hr) as [d ->].
    destruct ap; simpl.
    2:{ repeat split; [now exists d | discriminate]. }
    destruct (next_of (JObj d)) as [url' | e]; [| reflexivity].
    specialize (IH (S n) url' (acc ++ records) (Some (JObj d))
                   (or_intror (ex_intro _ d eq_refl))).
    destruct (result_of (loop true fuel (S n) url' (acc ++ records) (Some (JObj d))))
      as [[[recs |] l] | e |]; try exact IH.
    destruct IH as [H1 [H2 _]]. repeat split; [exact H1 | exact H2 | discriminate].
Qed.

(** X9.  What [fetch_data] hands back has one of two shapes: [(None,
    None)] together with exactly one "Failed to fetch" message for a
    response whose status is not 200; or a record list together with a
    JSON object as last response, after at least one request and with
    no message.  A run that raises shows no message either. *)
Theorem fetch_data_result_shape (all_pages : bool) fuel full_url :
  match result_of (fetch all_pages fuel full_url) with
  | Returns (None, l) =>
      l = None /\
      exists response,
        st_errors (fetch all_pages fuel full_url) = [failed_to_fetch response] /\
        status_code response <> 200%Z
  | Returns (Some recs, l) =>
      st_errors (fetch all_pages fuel full_url) = [] /\
      (exists d, l = Some (JObj d)) /\
      requested (fetch all_pages fuel full_url) <> []
  | Raises _ => st_errors (fetch all_pages fuel full_url) = []
  | OutOfFuel => st_errors (fetch all_pages fuel full_url) = []
  end.
Proof.
  unfold fetch_data.
  pose proof (fetch_loop_shape all_pages fuel 0 full_url [] None (or_introl eq_refl))
    as H.
  destruct (result_of (loop all_pages fuel 0 full_url [] None))
    as [[[recs |] l] | e |]; try exact H.
  destruct H as [H1 [H2 H3]]. repeat split; [exact H1 | exact H2 | now apply H3].
Qed.

Lemma fetch_loop_requested_truthy (ap : bool) fuel :
  forall n url acc last,
    Forall (fun u => truthy u = true) (requested (loop ap fuel n url acc last)).
Proof.
  induction fuel as [| fuel IH]; intros n url acc last.
  - simpl. destruct (truthy url); simpl; [constructor |].
    destruct last; constructor.
  - destruct (truthy url) eqn:Hu.
    2:{ rewrite fetch_loop_stop by assumption. destruct last; constructor. }
    rewrite fetch_loop_unfold by assumption. rewrite requested_sent.
    constructor; [exact Hu |].
    destruct (requests_get n url hdrs) as [response | e]; [| constructor].
    destruct (negb (status_code response =? 200)%Z); [constructor |].
    destruct (response_json response) as [body | e]; [| constructor].
    destruct (records_of body) as [records | e]; [| constructor].
    destruct ap; [| constructor].
    destruct (next_of body) as [url' | e]; [| constructor].
    apply IH.
Qed.

(** X10.  [fetch_data] never passes a falsy URL (an empty string,
    [None]) to [requests.get]: called with a falsy [full_url] it sends
    no request and raises [UnboundLocalError], the loop body never
    having bound [last_response]; and with [all_pages] false it sends at
    most one request, whatever the server answers. *)
Theorem fetch_data_requests_truthy_urls (all_pages : bool) fuel full_url :
  Forall (fun u => truthy u = true) (requested (fetch all_pages fuel full_url)) /\
  (truthy full_url = false ->
   fetch all_pages fuel full_url = finish (Raises UnboundLocalError)) /\
  (all_pages = false -> length (requested (fetch all_pages fuel full_url)) <= 1).
Proof.
  unfold fetch_data. split; [apply fetch_loop_requested_truthy | split].
  - intros H. now rewrite fetch_loop_stop.
  - intros ->. destruct (truthy full_url) eqn:Hu.
    2:{ rewrite fetch_loop_stop by assumption. simpl. lia. }
    destruct fuel as [| fuel]; [simpl; rewrite Hu; simpl; lia |].
    rewrite fetch_loop_unfold by assumption. rewrite requested_sent.
    destruct (requests_get 0 full_url hdrs) as [response | e]; [| simpl; lia].
    destruct (negb (status_code response =? 200)%Z); [simpl; lia |].
    destruct (response_json response) as [body | e]; [| simpl; lia].
    destruct (records_of body) as [records | e]; simpl; lia.
Qed.

Lemma fetch_loop_returns_fetched (ap : bool) fuel :
  forall n url acc last0 recs l,
    result_of (loop ap fuel n url acc last0) = Returns (Some recs, l) ->
    exists rs,
      fetched n (requested (loop ap fuel n url acc last0)) rs last0 l /\
      recs = acc ++ concat rs.
Proof.
  induction fuel as [| fuel IH]; intros n url acc last0 recs l H.
  - simpl in H |- *. destruct (truthy url); simpl in H |- *; [discriminate |].
    destruct last0; simpl in H |- *; [| discriminate].
    injection H as <- <-. exists []. simpl. now rewrite app_nil_r.
  - destruct (truthy url) eqn:Hu.
    2:{ rewrite fetch_loop_stop in H |- * by assumption.
        destruct last0; simpl in H |- *; [| discriminate].
        injection H as <- <-. exists []. simpl. now rewrite app_nil_r. }
    rewrite fetch_loop_unfold in H |- * by assumption.
    rewrite result_of_sent in H. rewrite requested_sent.
    destruct (requests_get n url hdrs) as [response | e] eqn:Hg; [| discriminate].
    destruct (status_code response =? 200)%Z eqn:Hs; simpl in H |- *;
      [| discriminate].
    apply Z.eqb_eq in Hs.
    destruct (response_json response) as [body | e] eqn:Hj; [| discriminate].
    destruct (records_of body) as [records | e] eqn:Hr; [| discriminate].
    destruct ap.
    + destruct (next_of body) as [url' | e]; [| discriminate].
      destruct (IH _ _ _ _ _ _ H) as [rs [Hf ->]].
      exists (records :: rs). split.
      * simpl. exists response, body. repeat split; assumption.
      * simpl. now rewrite app_assoc.
    + simpl in H. injection H as <- <-.
      exists [records]. split.
      * simpl. exists response, body. repeat split; assumption.
      * simpl. now rewrite app_nil_r.
Qed.

Lemma fetched_pages_length rs :
  forall n urls before after,
    fetched n urls rs before after -> length rs = length urls.
Proof.
  induction rs as [| r rs IH]; intros n urls b a Hf; destruct urls as [| u urls];
    simpl in Hf |- *; try contradiction; [reflexivity |].
  destruct Hf as (response & body & _ & _ & _ & _ & Hf).
  f_equal. exact (IH _ _ _ _ Hf).
Qed.

(** X11.  Whatever record list [fetch_data] returns is exactly the
    records of the pages it requested, concatenated in request order:
    each requested URL was answered with status 200 and a readable body,
    no page's records are dropped, repeated or reordered, and the last
    response returned is the body of the last page requested. *)
Theorem fetch_data_returns_all_fetched (all_pages : bool) fuel full_url recs l :
  result_of
    (fetch_data requests_get urljoin hdrs base endpoint_path
       all_pages fuel full_url) = Returns (Some recs, l) ->
  exists rs,
    fetched_pages requests_get hdrs endpoint_path 0 (requested
       (fetch_data requests_get urljoin hdrs base endpoint_path
          all_pages fuel full_url)) rs None l /\
    recs = concat rs /\
    length rs = length (requested
       (fetch_data requests_get urljoin hdrs base endpoint_path
          all_pages fuel full_url)).
Proof.
  intros H. unfold fetch_data in *.
  destruct (fetch_loop_returns_fetched all_pages fuel 0 full_url [] None recs l H)
    as [rs [Hf ->]].
  exists rs. repeat split; [exact Hf |].
  exact (fetched_pages_length rs _ _ _ _ Hf).
Qed.

(** X12.  With [all_pages] set, a page whose [nextPageUrl] is present
    but falsy ([null], an empty string, [0], [false]) ends the
    pagination just as a missing field does: its request is the last. *)
Theorem fetch_data_falsy_link_stops fuel full_url k url response d link :
  nth_error (requested (fetch true fuel full_url)) k = Some url ->
  requests_get k url hdrs = Ok response ->
  response_json response = Ok (JObj d) ->
  lookup "nextPageUrl" d = Some link ->
  truthy link = false ->
  length (requested (fetch true fuel full_url)) = S k.
Proof.
  intros Hk Hg Hj Hl Tl. unfold fetch_data in *.
  assert (Hlt : k < length (requested (loop true fuel 0 full_url [] None)))
    by (apply nth_error_Some; congruence).
  destruct (nth_error (requested (loop true fuel 0 full_url [] None)) (S k))
    as [url' |] eqn:Hk'.
  - destruct (fetch_loop_next_url_safe requests_get urljoin hdrs base endpoint_path
                k fuel 0 full_url [] None url response d link url'
                Hk Hg Hj Hl Hk') as [T _].
    congruence.
  - apply nth_error_None in Hk'. lia.
Qed.

End FetchInvariants.

Lemma fetch_data_body_not_object_witness :
  (result_of (scripted_fetch array_script) = Raises TypeError \/
   result_of (scripted_fetch array_script) = Raises AttributeError) /\
  length (requested (scripted_fetch array_script)) = 2 /\
  st_errors (scripted_fetch array_script) = [].
Proof.
  apply (fetch_data_body_not_object
           (scripted_get array_script) sample_urljoin sample_headers sample_base
           recipes_path true 10 (JStr (sample_base ++ recipes_path)) 1
           (JStr (sample_base ++ recipes_path ++ "?page=2"))
           array_response (JArr [recipe "05v9" "Loose"])).
  - reflexivity.
  - reflexivity.
  - reflexivity.
  - reflexivity.
  - intros d. discriminate.
Defined.

Lemma fetch_data_requests_truthy_urls_witness :
  fetch_data sample_get sample_urljoin sample_headers sample_base recipes_path
             true 10 (JStr EmptyString) = finish (Raises UnboundLocalError) /\
  length (requested (sample_fetch recipes_path false)) <= 1.
Proof.
  split.
  - apply (proj1 (proj2 (fetch_data_requests_truthy_urls
                           sample_get sample_urljoin sample_headers sample_base
                           recipes_path true 10 (JStr EmptyString)))).
    reflexivity.
  - apply (proj2 (proj2 (fetch_data_requests_truthy_urls
                           sample_get sample_urljoin sample_headers sample_base
                           recipes_path false 10
                           (JStr (sample_base ++ recipes_path))))).
    reflexivity.
Defined.

Lemma fetch_data_returns_all_fetched_witness :
  exists rs,
    fetched_pages sample_get sample_headers recipes_path 0
                  (requested (sample_fetch recipes_path true)) rs None
                  (Some (JObj recipes_body2)) /\
    [recipe "05v1" "Sales"; recipe "05v2" "Leads"; recipe "05v3" "Cases"]
    = concat rs /\
    length rs = length (requested (sample_fetch recipes_path true)).
Proof.
  apply (fetch_data_returns_all_fetched
           sample_get sample_urljoin sample_headers sample_base recipes_path
           true 10 (JStr (sample_base ++ recipes_path))).
  reflexivity.
Defined.

Lemma fetch_data_falsy_link_stops_witness :
  length (requested (scripted_fetch null_link_script)) = 1.
Proof.
  apply (fetch_data_falsy_link_stops
           (scripted_get null_link_script) sample_urljoin sample_headers sample_base
           recipes_path 10 (JStr (sample_base ++ recipes_path)) 0
           (JStr (sample_base ++ recipes_path))
           (ok_response null_link_body) null_link_body JNull); reflexivity.
Defined.

(** ** The instance URL, continued *)

Lemma rstrip_fixed (s : string) :
  forall d, s <> EmptyString ->
            isspace (last (list_ascii_of_string s) d) = false ->
            rstrip s = s.
Proof.
  induction s as [| a r IH]; intros d Hne Hlast; [congruence |].
  destruct r as [| b r'].
  - simpl in *. now rewrite Hlast.
  - change (rstrip (String a (String b r')))
      with (match rstrip (String b r') with
            | EmptyString => if isspace a then EmptyString else String a EmptyString
            | r0 => String a r0
            end).
    rewrite (IH d); [reflexivity | discriminate | exact Hlast].
Qed.

Lemma strip_trimmed (s : string) : trimmed s -> strip s = s.
Proof.
  unfold trimmed, strip. destruct s as [| c r]; [reflexivity |].
  simpl list_ascii_of_string. intros [Hc Hlast].
  simpl lstrip. rewrite Hc.
  apply (rstrip_fixed _ c); [discriminate | exact Hlast].
Qed.

Lemma lstrip_all_space (s : string) : all_space s -> lstrip s = EmptyString.
Proof.
  unfold all_space. induction s as [| c r IH]; simpl; intros H; [reflexivity |].
  inversion H as [| ? ? Hc Hr]; subst. rewrite Hc. now apply IH.
Qed.

Lemma https_prefix_trimmed (t : string) :
  trimmed t -> trimmed ("https://" ++ t).
Proof.
  unfold trimmed. intros H. simpl. split; [reflexivity |].
  destruct t as [| c r]; [reflexivity |].
  simpl in H |- *. destruct H as [_ H].
  destruct (list_ascii_of_string r) as [| b l]; [exact H |].
  now rewrite (last_default_irrelevant b l "h"%char c).
Qed.

Lemma normalize_instance_url_fixed (u : string) :
  trimmed u -> http_scheme (JStr u) = true -> normalize_instance_url u = u.
Proof.
  intros Ht Hs. unfold normalize_instance_url.
  rewrite (strip_trimmed u Ht). unfold http_scheme in Hs. now rewrite Hs.
Qed.

Lemma normalize_instance_url_trimmed (loaded : string) :
  trimmed (normalize_instance_url loaded).
Proof.
  destruct (strip_spec loaded) as [_ [_ [_ [_ [_ Ht]]]]].
  unfold normalize_instance_url.
  destruct (negb _); [now apply https_prefix_trimmed | exact Ht].
Qed.

(** X13.  Normalising the instance URL is idempotent: a URL that went
    through lines 117-121 once is left as it is by a second pass; in
    particular ['https://'] is never put in front twice. *)
Theorem normalize_instance_url_idempotent (loaded : string) :
  normalize_instance_url (normalize_instance_url loaded)
  = normalize_instance_url loaded.
Proof.
  apply normalize_instance_url_fixed.
  - apply normalize_instance_url_trimmed.
  - apply normalize_instance_url_scheme.
Qed.

(** X14.  An instance URL made of whitespace only is truthy, so it
    passes the credentials check; [main] then strips it to nothing and
    works with the bare ['https://']. *)
Theorem whitespace_instance_url_becomes_bare_scheme
        (d : dict) (t : json) (s : string) :
  lookup "access_token" d = Some t -> truthy t = true ->
  lookup "instance_url" d = Some (JStr s) ->
  s <> EmptyString -> all_space s ->
  load_auth_credentials (JObj d) =
  Ok {| access_token := t; instance_url := JStr s |} /\
  main_instance_url {| access_token := t; instance_url := JStr s |} = Ok "https://".
Proof.
  intros Ht Tt Hs Hne Hsp. split.
  - unfold load_auth_credentials, py_or. rewrite !py_get_obj, Ht, Hs. simpl.
    rewrite Tt. destruct s; [congruence |]. simpl. now rewrite Tt.
  - unfold main_instance_url, normalize_instance_url, strip. simpl.
    now rewrite (lstrip_all_space _ Hsp).
Qed.

Lemma whitespace_instance_url_becomes_bare_scheme_witness :
  load_auth_credentials
    (JObj [("access_token", JStr "00Dxx"); ("instance_url", JStr "   ")]) =
  Ok {| access_token := JStr "00Dxx"; instance_url := JStr "   " |} /\
  main_instance_url {| access_token := JStr "00Dxx"; instance_url := JStr "   " |}
  = Ok "https://".
Proof.
  apply whitespace_instance_url_becomes_bare_scheme.
  - reflexivity.
  - reflexivity.
  - reflexivity.
  - discriminate.
  - repeat constructor.
Defined.

(** ** What the page shows *)

Section AppProperties.

Variable requests_get : nat -> json -> headers -> result http_response.
Variable urljoin : string -> json -> result json.
Variable format : json -> string.
Variable frame : Type.
Variable DataFrame : list json -> result frame.
Variable to_csv : frame -> result string.

Local Abbreviation app := (main_app requests_get urljoin format DataFrame to_csv).
Local Abbreviation fetched_by_main := (main_fetch requests_get urljoin format).

(** Pressing the button with a file uploaded: [main] shows what
    [render] makes of the run that [main_fetch] describes. *)
Lemma main_app_fetched fuel auth_data endpoint_path all_pages r :
  fetched_by_main fuel auth_data endpoint_path all_pages = MainFetched r ->
  exists c u full_url,
    load_auth_credentials auth_data = Ok c /\
    main_instance_url c = Ok u /\
    urljoin u (JStr endpoint_path) = Ok full_url /\
    r = fetch_data requests_get urljoin (main_headers format c) u endpoint_path
                   all_pages fuel full_url /\
    app fuel (Some auth_data) endpoint_path all_pages true
    = render DataFrame to_csv full_url r.
Proof.
  unfold main_fetch, main_app. intros H.
  destruct (load_auth_credentials auth_data) as [c | e] eqn:Hl; [| discriminate].
  destruct (main_instance_url c) as [u | e] eqn:Hu; [| discriminate].
  destruct endpoint_path as [| a path]; [discriminate |].
  destruct (urljoin u (JStr (String a path))) as [full_url | e] eqn:Hj;
    [| discriminate].
  injection H as <-. exists c, u, full_url.
  rewrite Hu. simpl. rewrite Hj. repeat split; reflexivity || assumption.
Qed.

Lemma main_run_shape fuel auth_data endpoint_path all_pages r :
  fetched_by_main fuel auth_data endpoint_path all_pages = MainFetched r ->
  match result_of r with
  | Returns (None, l) =>
      exists response,
        st_errors r = [failed_to_fetch response] /\ status_code response <> 200%Z
  | _ => st_errors r = []
  end.
Proof.
  intros H. destruct (main_app_fetched _ _ _ _ _ H)
    as (c & u & full_url & _ & _ & _ & -> & _).
  unfold fetch_data.
  pose proof (fetch_loop_shape requests_get urljoin (main_headers format c) u
                endpoint_path all_pages fuel 0 full_url [] None
                (or_introl eq_refl)) as S.
  destruct (result_of _) as [[[recs |] l] | e |]; try exact S.
  - exact (proj1 S).
  - exact (proj2 S).
Qed.

(** X15.  An exception raised while fetching (a failed request, a body
    that is not JSON, records that cannot be iterated) does not leave
    [main]: the page shows exactly one "An error occurred" message for
    it, and no table. *)
Theorem main_reports_fetch_exception fuel auth_data endpoint_path all_pages r e :
  main_fetch requests_get urljoin format fuel auth_data endpoint_path all_pages
  = MainFetched r ->
  result_of r = Raises e ->
  main_app requests_get urljoin format DataFrame to_csv
           fuel (Some auth_data) endpoint_path all_pages true
  = AppDone [StErrorOccurred e].
Proof.
  intros H He. pose proof (main_run_shape _ _ _ _ _ H) as S.
  destruct (main_app_fetched _ _ _ _ _ H) as (c & u & full_url & _ & _ & _ & _ & ->).
  unfold render. rewrite He in S |- *. now rewrite S.
Qed.

(** X16.  A page that failed with a status other than 200 leaves on the
    page the one "Failed to fetch data" message and nothing else: no
    table, no warning, no second error. *)
Theorem main_shows_only_fetch_failure fuel auth_data endpoint_path all_pages r l :
  fetched_by_main fuel auth_data endpoint_path all_pages = MainFetched r ->
  result_of r = Returns (None, l) ->
  exists response,
    status_code response <> 200%Z /\
    app fuel (Some auth_data) endpoint_path all_pages true
    = AppDone [StError (failed_to_fetch response)].
Proof.
  intros H Hr. pose proof (main_run_shape _ _ _ _ _ H) as S.
  destruct (main_app_fetched _ _ _ _ _ H) as (c & u & full_url & _ & _ & _ & _ & ->).
  unfold render. rewrite Hr in S |- *.
  destruct S as [response [S Hs]]. exists response. split; [exact Hs |].
  now rewrite S.
Qed.

(** X17.  An exception leaves [main] only before the [try]: nothing has
    been shown, and it is the exception of [load_auth_credentials], the
    [AttributeError] of [.strip()] on an instance URL that is not a
    string, or, once the button is pressed with a non-empty path, the
    exception of [urljoin] on the endpoint path. *)
Theorem main_escaping_exception fuel uploaded endpoint_path all_pages button e evs :
  app fuel uploaded endpoint_path all_pages button = AppRaised e evs ->
  evs = [] /\
  exists auth_data,
    uploaded = Some auth_data /\
    (load_auth_credentials auth_data = Raise e \/
     (exists c, load_auth_credentials auth_data = Ok c /\
                (forall s, instance_url c <> JStr s) /\ e = AttributeError) \/
     (button = true /\ endpoint_path <> EmptyString /\
      exists c u, load_auth_credentials auth_data = Ok c /\
                  main_instance_url c = Ok u /\
                  urljoin u (JStr endpoint_path) = Raise e)).
Proof.
  unfold main_app. destruct uploaded as [auth_data |]; [| discriminate].
  destruct (load_auth_credentials auth_data) as [c | e0] eqn:Hl.
  2:{ intros [= <- <-]. split; [reflexivity |]. exists auth_data. auto. }
  destruct (main_instance_url c) as [u | e0] eqn:Hu.
  2:{ intros [= <- <-]. split; [reflexivity |]. exists auth_data.
      split; [reflexivity |]. right. left. exists c.
      split; [exact Hl |].
      unfold main_instance_url in Hu.
      destruct (instance_url c); try discriminate Hu;
        injection Hu as <-; (split; [intros s0; discriminate | reflexivity]). }
  destruct button; simpl; [| discriminate].
  destruct endpoint_path as [| a path]; [discriminate |].
  destruct (urljoin u (JStr (String a path))) as [full_url | e0] eqn:Hj.
  - unfold render. destruct (result_of _) as [[[[| x data] |] l] | e1 |];
      discriminate.
  - intros [= <- <-]. split; [reflexivity |]. exists auth_data.
    split; [reflexivity |]. right. right.
    repeat split; [discriminate |]. exists c, u. auto.
Qed.

Ltac event_in H :=
  simpl in H;
  repeat match type of H with
         | _ \/ _ => destruct H as [H | H]
         | False => contradiction
         | _ = _ => first [discriminate H | injection H as H; subst]
         end.

(** X18.  The table is shown only when the fetch returned at least one
    record, and it is the frame built from exactly those records; "No
    data found." is shown only when the fetch returned an empty list,
    and then it is the only thing shown; the JSON of the last response
    is shown only when it is truthy and below a table. *)
Theorem main_table_and_warning
        fuel uploaded endpoint_path all_pages button evs :
  app fuel uploaded endpoint_path all_pages button = AppDone evs ->
  (forall df,
      In (StDataframe df) evs ->
      exists auth_data r data l,
        uploaded = Some auth_data /\ button = true /\
        fetched_by_main fuel auth_data endpoint_path all_pages = MainFetched r /\
        result_of r = Returns (Some data, l) /\
        data <> [] /\ DataFrame data = Ok df) /\
  (forall m,
      In (StWarning m) evs ->
      evs = [StWarning "No data found."] /\
      exists auth_data r l,
        uploaded = Some auth_data /\ button = true /\
        fetched_by_main fuel auth_data endpoint_path all_pages = MainFetched r /\
        result_of r = Returns (Some [], l)) /\
  (forall v,
      In (StJson v) evs ->
      truthy v = true /\ exists df, In (StDataframe df) evs).
Proof.
  unfold main_app. destruct uploaded as [auth_data |].
  2:{ intros [= <-]. (split; [| split]); intros x Hin; event_in Hin. }
  destruct (load_auth_credentials auth_data) as [c | e0] eqn:Hl; [| discriminate].
  destruct (main_instance_url c) as [u | e0] eqn:Hu; [| discriminate].
  destruct button; simpl.
  2:{ intros [= <-]. (split; [| split]); intros x Hin; event_in Hin. }
  destruct endpoint_path as [| a path] eqn:Hp.
  { intros [= <-]. (split; [| split]); intros x Hin; event_in Hin. }
  destruct (urljoin u (JStr (String a path))) as [full_url | e0] eqn:Hj;
    [| discriminate].
  set (r := fetch_data requests_get urljoin (main_headers format c) u
                       (String a path) all_pages fuel full_url).
  assert (Hm : fetched_by_main fuel auth_data (String a path) all_pages = MainFetched r)
    by (unfold main_fetch; rewrite Hl, Hu, Hj; reflexivity).
  pose proof (main_run_shape _ _ _ _ _ Hm) as S.
  unfold render.
  destruct (result_of r) as [[[[| x data] |] l] | e1 |] eqn:Hr.
  - rewrite S. intros [= <-]. (split; [| split]); intros y Hin; event_in Hin.
    split; [reflexivity |]. exists auth_data, r, l. auto.
  - rewrite S. simpl. unfold show_data.
    destruct (DataFrame (x :: data)) as [df |e2] eqn:Hd.
    2:{ intros [= <-]. (split; [| split]); intros y Hin; event_in Hin. }
    destruct (to_csv df) as [csv | e2].
    2:{ intros [= <-]. (split; [| split]); intros y Hin; event_in Hin.
        exists auth_data, r, (x :: data), l.
        repeat split; try assumption; discriminate. }
    destruct l as [v |]; [destruct (truthy v) eqn:Tv |];
      intros [= <-]; (split; [| split]); intros y Hin; event_in Hin;
      try (exists auth_data, r, (x :: data); eexists;
           repeat split; try eassumption; discriminate);
      (split; [assumption | exists df; simpl; now left]).
  - destruct S as [response [S _]]. rewrite S. intros [= <-].
    (split; [| split]); intros y Hin; event_in Hin.
  - rewrite S. intros [= <-]. (split; [| split]); intros y Hin; event_in Hin.
  - discriminate.
Qed.

End AppProperties.

Lemma main_reports_fetch_exception_witness :
  sample_app "ftp://files.example.com/pub/recipes" true
  = AppDone [StErrorOccurred RequestException].
Proof.
  apply (main_reports_fetch_exception
           sample_get sample_urljoin sample_format (list json)
           sample_DataFrame sample_to_csv 10 sample_auth
           "ftp://files.example.com/pub/recipes" true
           {| result_of := Raises RequestException;
              requested := [JStr "ftp://files.example.com/pub/recipes"];
              st_errors := [] |}); reflexivity.
Defined.

Lemma main_shows_only_fetch_failure_witness :
  exists response,
    status_code response <> 200%Z /\
    sample_app jobs_path true = AppDone [StError (failed_to_fetch response)].
Proof.
  apply (main_shows_only_fetch_failure
           sample_get sample_urljoin sample_format (list json)
           sample_DataFrame sample_to_csv 10 sample_auth jobs_path true
           (sample_fetch jobs_path true) None); reflexivity.
Defined.

Lemma main_escaping_exception_witness :
  @nil (ui_event (list json)) = [] /\
  exists auth_data,
    Some (JObj [("accessToken", JStr "00Dxx"); ("instanceUrl", JInt 7)])
    = Some auth_data /\
    (load_auth_credentials auth_data = Raise AttributeError \/
     (exists c, load_auth_credentials auth_data = Ok c /\
                (forall s, instance_url c <> JStr s) /\
                AttributeError = AttributeError) \/
     (false = true /\ recipes_path <> EmptyString /\
      exists c u, load_auth_credentials auth_data = Ok c /\
                  main_instance_url c = Ok u /\
                  sample_urljoin u (JStr recipes_path) = Raise AttributeError)).
Proof.
  apply (main_escaping_exception
           sample_get sample_urljoin sample_format (list json)
           sample_DataFrame sample_to_csv 10
           (Some (JObj [("accessToken", JStr "00Dxx"); ("instanceUrl", JInt 7)]))
           recipes_path true false AttributeError []).
  reflexivity.
Defined.

Lemma main_table_and_warning_witness :
  (exists auth_data r data l,
      Some sample_auth = Some auth_data /\ true = true /\
      main_fetch sample_get sample_urljoin sample_format 10 auth_data
                 recipes_path true = MainFetched r /\
      result_of r = Returns (Some data, l) /\
      data <> [] /\
      sample_DataFrame data
      = Ok [recipe "05v1" "Sales"; recipe "05v2" "Leads"; recipe "05v3" "Cases"]) /\
  (truthy (JObj recipes_body2) = true /\
   exists df,
     In (StDataframe df)
        [StDataframe [recipe "05v1" "Sales"; recipe "05v2" "Leads";
                      recipe "05v3" "Cases"];
         StDownloadButton "id,name";
         StWrite "**Formed API URL:**";
         StCode (JStr (sample_base ++ recipes_path));
         StWrite "**JSON Response:**";
         StJson (JObj recipes_body2)]).
Proof.
  destruct (main_table_and_warning
              sample_get sample_urljoin sample_format (list json)
              sample_DataFrame sample_to_csv 10 (Some sample_auth)
              recipes_path true true
              [StDataframe [recipe "05v1" "Sales"; recipe "05v2" "Leads";
                            recipe "05v3" "Cases"];
               StDownloadButton "id,name";
               StWrite "**Formed API URL:**";
               StCode (JStr (sample_base ++ recipes_path));
               StWrite "**JSON Response:**";
               StJson (JObj recipes_body2)] eq_refl) as [H1 [_ H3]].
  split.
  - apply H1. simpl. now left.
  - apply H3. simpl. tauto.
Defined.
